(** * pybalboa: the command-line harness of [pybalboa/__main__.py]

    The module connects to a spa, prints its configuration and then drives
    every control through each of its options, polling the observed state
    after every set request.  This development embeds the harness as
    functions over an explicit device world and proves properties of the
    traces it produces.

    Modelling choices.
    - The spa and its controls belong to the client library; they reach the
      harness only through the attributes and coroutines used in the source.
      They are records of functions over an arbitrary world type [W].
      The world changes only where the source awaits ([set_state],
      [set_temperature], [asyncio.sleep], connect, ...); plain attribute
      reads between two awaits see the same world.
    - An [IntEnum] state is the integer it denotes, compared with [Z.eqb].
    - A temperature is a rational number: every finite float is one, and the
      harness only compares temperatures with [!=].
    - [asyncio.wait_for(check(), wait)] runs a loop that sleeps 0.1 s per
      round; [budget] is the number of sleeps that complete before the
      deadline, and the sleep the deadline interrupts is a step of its own.
      Every theorem holds for every [budget].  When the awaited check
      returns, its caller goes on in the same world, as it does where
      [wait_for] awaits the coroutine in the caller's own task (Python 3.12
      and later); where [wait_for] runs it in a task of its own, status
      updates may arrive before the caller goes on, and what the result line
      then names is not covered here.
    - Printing and awaiting are recorded in a trace of events. *)

From Stdlib Require Import ZArith List String Bool QArith Lia.
Import ListNotations.
Local Open Scope Z_scope.
Local Open Scope string_scope.
Local Open Scope list_scope.

(** ** Output lines and events *)

(** Lines written by [print].  Fixed text is a string; a line that formats
    an enum member's name or a temperature keeps the value. *)
Inductive line : Type :=
| Text (s : string)
| CurrentState (s : Z)                     (* "Current state: {name}" *)
| SetTo (s : Z)                            (* "  Set to {name}" *)
| StateIsNow (s : Z)                       (* "  State is now {name}" *)
| StateNotChanged (wait : Z) (s : Z)       (* "  State was not changed after ..." *)
| CurrentTargetTemperature (t : option Q)  (* "Current target temperature: {t}" *)
| SetToTemperature (t : Q)                 (* "  Set to {t}" *)
| SetTemperatureIsNow (t : option Q)       (* "  Set temperature is now {t}" *)
| SetTemperatureNotChanged (wait : Z) (t : option Q).

Inductive event : Type :=
| Print (l : line)
| SetState (target : Z) (accepted : bool)  (* await control.set_state(state) *)
| Poll (observed : Z)                      (* control.state read by _state_check *)
| SetTemperature (t : Q)                   (* await spa.set_temperature(t) *)
| PollTemperature (observed : option Q)    (* read by _temperature_check *)
| Sleep                                    (* await asyncio.sleep(0.1) *)
| Cancelled                                (* the sleep cut short by the deadline *)
| Discover (first_spa : bool) (found : nat)
| DiscoverFailed (first_spa : bool)        (* SpaClient.discover raised *)
| Connect (ok : bool)                      (* async with spa: entry *)
| Disconnect                               (* async with spa: exit *)
| ConfigurationLoaded (loaded : bool)
| BasicConfigDebug.                        (* logging.basicConfig(level=DEBUG) *)

Inductive exn : Type := SpaConnectionError | AssertionError | TimeoutError.

Inductive result (A : Type) : Type :=
| Ok (a : A)
| Raise (e : exn).
Arguments Ok {A} a.
Arguments Raise {A} e.

(** ** The client library's objects, as the harness uses them

    The classes [SpaControl] and [SpaClient] live in other modules of the
    package.  The harness is proved correct for every implementation of the
    interface below. *)

(** Modelled from the spec: the class [SpaControl] ([name], [options],
    [state] and the coroutine [set_state], whose result says whether the
    request was accepted for dispatch). *)
Record SpaControl (W : Type) : Type := {
  name : string;
  options : list Z;
  state : W -> Z;
  set_state : Z -> W -> bool * W
}.
Arguments name {W} _.
Arguments options {W} _.
Arguments state {W} _ _.
Arguments set_state {W} _ _ _.

Inductive SpaState : Type := TEST_MODE | OTHER_STATE.

(** Modelled from the spec: the class [SpaClient].  Entering the session
    either succeeds or raises [SpaConnectionError]; the temperatures are
    optional numbers; [report] stands for the attribute reads that lines 44
    to 108 format and print, which are taken not to fail.  A client object
    is always true in a condition. *)
Record SpaClient (W : Type) : Type := {
  connect : W -> bool * W;                 (* false: SpaConnectionError *)
  disconnect : W -> W;
  async_configuration_loaded : W -> bool * W;
  spa_state : W -> SpaState;
  report : W -> list line;                 (* the lines printed at 44-108 *)
  target_temperature : W -> option Q;
  temperature_maximum : W -> option Q;
  temperature_minimum : W -> option Q;
  set_temperature : Q -> W -> W;
  controls : W -> list (SpaControl W)
}.
Arguments connect {W} _ _.
Arguments disconnect {W} _ _.
Arguments async_configuration_loaded {W} _ _.
Arguments spa_state {W} _ _.
Arguments report {W} _ _.
Arguments target_temperature {W} _ _.
Arguments temperature_maximum {W} _ _.
Arguments temperature_minimum {W} _ _.
Arguments set_temperature {W} _ _ _.
Arguments controls {W} _ _.

(** Modelled from the spec: what the harness imports besides the objects
    above.  [SpaClient.discover] returns the list of spas found, an empty
    list when there is none, or fails with a connectivity error when the
    transport does. *)
Record Library (W : Type) : Type := {
  asyncio_sleep : W -> W;                           (* asyncio.sleep(0.1) *)
  cancelled_sleep : W -> W;                         (* the same, cut short *)
  SpaClient_discover : bool -> W -> result (list (SpaClient W)) * W;
  SpaClient_new : string -> SpaClient W;            (* SpaClient(host) *)
  version : string                                  (* __version__ *)
}.
Arguments asyncio_sleep {W} _ _.
Arguments cancelled_sleep {W} _ _.
Arguments SpaClient_discover {W} _ _ _.
Arguments SpaClient_new {W} _ _.
Arguments version {W} _.

(** ** A monad for coroutines: world, trace and exceptions *)

Module Co.
Section Monad.
Context {W : Type}.

Definition M (A : Type) : Type := W -> result A * W * list event.

Definition ret {A} (a : A) : M A := fun w => (Ok a, w, []).

Definition bind {A B} (m : M A) (f : A -> M B) : M B :=
  fun w =>
    match m w with
    | (Ok a, w1, t1) =>
        match f a w1 with
        | (r, w2, t2) => (r, w2, t1 ++ t2)
        end
    | (Raise e, w1, t1) => (Raise e, w1, t1)
    end.

Definition raise {A} (e : exn) : M A := fun w => (Raise e, w, []).

(** [try: m  except e: h] *)
Definition try_except {A} (m : M A) (catches : exn -> bool) (h : M A) : M A :=
  fun w =>
    match m w with
    | (Ok a, w1, t1) => (Ok a, w1, t1)
    | (Raise e, w1, t1) =>
        if catches e
        then match h w1 with (r, w2, t2) => (r, w2, t1 ++ t2) end
        else (Raise e, w1, t1)
    end.

(** [m] followed by [fin] on every exit path. *)
Definition finally {A} (m : M A) (fin : M unit) : M A :=
  fun w =>
    match m w with
    | (r, w1, t1) =>
        match fin w1 with
        | (Ok _, w2, t2) => (r, w2, t1 ++ t2)
        | (Raise e, w2, t2) => (Raise e, w2, t1 ++ t2)
        end
    end.

Definition emit (e : event) : M unit := fun w => (Ok tt, w, [e]).

(** An attribute read: no event, no change. *)
Definition read {A} (f : W -> A) : M A := fun w => (Ok (f w), w, []).

(** An awaited library call, recorded by [ev]. *)
Definition await {A} (f : W -> A * W) (ev : A -> event) : M A :=
  fun w => let '(a, w1) := f w in (Ok a, w1, [ev a]).

(** An awaited library call that may raise, recorded by [ev]. *)
Definition await_raising {A} (f : W -> result A * W) (ev : result A -> event)
  : M A :=
  fun w => let '(r, w1) := f w in (r, w1, [ev r]).

Definition print (l : line) : M unit := emit (Print l).

Fixpoint for_each {A} (xs : list A) (body : A -> M unit) : M unit :=
  match xs with
  | [] => ret tt
  | x :: rest => bind (body x) (fun _ => for_each rest body)
  end.

Definition world_of {A} (r : result A * W * list event) : W := snd (fst r).
Definition trace_of {A} (r : result A * W * list event) : list event := snd r.
Definition value_of {A} (r : result A * W * list event) : result A := fst (fst r).
(** Every event of every run of [m] satisfies [P]. *)
Definition emits_only (P : event -> Prop) {A} (m : M A) : Prop :=
  forall w, Forall P (trace_of (m w)).

End Monad.
End Co.

Import Co.

Declare Scope co_scope.
Delimit Scope co_scope with co.
Notation "x <- m ;; k" := (bind m (fun x => k))
  (at level 61, m at next level, right associativity) : co_scope.
Notation "m ;;; k" := (bind m (fun _ => k))
  (at level 61, right associativity) : co_scope.
Local Open Scope co_scope.

(** ** The harness *)

Section Harness.
Context {W : Type}.
Variable lib : Library W.
Variable budget : nat.

(** [wait = 10] in both [adjust_*] functions. *)
Definition wait : Z := 10.

Definition is_timeout (e : exn) : bool :=
  match e with TimeoutError => true | _ => false end.

Definition sleep : M unit :=
  await (fun w => (tt, asyncio_sleep lib w)) (fun _ => Sleep).

(** The sleep during which the deadline of [asyncio.wait_for] passes: the
    task is cancelled and [TimeoutError] is raised in the caller. *)
Definition timeout : M unit :=
  await (fun w => (tt, cancelled_sleep lib w)) (fun _ => Cancelled) ;;;
  raise TimeoutError.

(** [asyncio.wait_for(_state_check(), wait)]:
    [while control.state != state: await asyncio.sleep(0.1)],
    cancelled with [TimeoutError] in the sleep that follows [n] whole ones. *)
Fixpoint wait_for_state_check (control : SpaControl W) (target : Z) (n : nat)
  : M unit :=
  cur <- read (state control) ;;
  emit (Poll cur) ;;;
  if negb (cur =? target)%Z
  then match n with
       | O => timeout
       | S k => sleep ;;; wait_for_state_check control target k
       end
  else ret tt.

Definition adjust_control (control : SpaControl W) (target : Z) : M unit :=
  cur <- read (state control) ;;
  print (CurrentState cur) ;;;
  print (SetTo target) ;;;
  accepted <- await (set_state control target) (SetState target) ;;
  if negb accepted then ret tt
  else
    try_except
      (wait_for_state_check control target budget ;;;
       now <- read (state control) ;;
       print (StateIsNow now))
      is_timeout
      (now <- read (state control) ;;
       print (StateNotChanged wait now)).

Definition is_connection_error (e : exn) : bool :=
  match e with SpaConnectionError => true | _ => false end.

(** Python's [a != b] on two numbers. *)
Definition py_ne (a b : Q) : bool := negb (Qeq_bool a b).

(** [spa.target_temperature != temperature]: [None] differs from a number. *)
Definition py_ne_opt (a : option Q) (b : Q) : bool :=
  match a with
  | Some x => py_ne x b
  | None => true
  end.

(** [asyncio.wait_for(_temperature_check(), wait)]. *)
Fixpoint wait_for_temperature_check (spa : SpaClient W) (temperature : Q) (n : nat)
  : M unit :=
  cur <- read (target_temperature spa) ;;
  emit (PollTemperature cur) ;;;
  if py_ne_opt cur temperature
  then match n with
       | O => timeout
       | S k => sleep ;;; wait_for_temperature_check spa temperature k
       end
  else ret tt.

Definition adjust_temperature (spa : SpaClient W) (temperature : Q) : M unit :=
  cur <- read (target_temperature spa) ;;
  print (CurrentTargetTemperature cur) ;;;
  print (SetToTemperature temperature) ;;;
  await (fun w => (tt, set_temperature spa temperature w))
        (fun _ => SetTemperature temperature) ;;;
  try_except
    (wait_for_temperature_check spa temperature budget ;;;
     now <- read (target_temperature spa) ;;
     print (SetTemperatureIsNow now))
    is_timeout
    (now <- read (target_temperature spa) ;;
     print (SetTemperatureNotChanged wait now)).

(** [assert x is not None]; the value is the narrowed one. *)
Definition assert_is_not_None {A} (f : W -> option A) : M A :=
  v <- read f ;;
  match v with
  | Some a => ret a
  | None => raise AssertionError
  end.

(** ["-" * n] *)
Fixpoint dashes (n : nat) : string :=
  match n with
  | O => EmptyString
  | S k => ("-" ++ dashes k)%string
  end.

(** The body of the inner loop of [test_controls]:
    [if option not in (state, control.state):
       await adjust_control(control, option)]. *)
Definition sweep_option (control : SpaControl W) (original : Z) (option : Z)
  : M unit :=
  live <- read (state control) ;;
  if negb ((option =? original)%Z || (option =? live)%Z)
  then adjust_control control option
  else ret tt.

(** [for option in control.options: ...] *)
Definition sweep_options (control : SpaControl W) (original : Z) : M unit :=
  for_each (options control) (sweep_option control original).

(** [if control.state != state: await adjust_control(control, state)] *)
Definition restore (control : SpaControl W) (original : Z) : M unit :=
  live <- read (state control) ;;
  if negb (live =? original)%Z
  then adjust_control control original
  else ret tt.

(** The body of [for control in spa.controls]. *)
Definition sweep_control (control : SpaControl W) : M unit :=
  print (Text (name control ++ " control")%string) ;;;
  print (Text (dashes (String.length (name control) + 8))) ;;;
  original <- read (state control) ;;
  sweep_options control original ;;;
  restore control original ;;;
  print (Text "").

Definition test_controls (spa : SpaClient W) : M unit :=
  print (Text "******** Testing spa controls **********") ;;;
  print (Text "") ;;;
  print (Text "Temperature control") ;;;
  print (Text "-------------------") ;;;
  target <- assert_is_not_None (target_temperature spa) ;;
  maximum <- assert_is_not_None (temperature_maximum spa) ;;
  minimum <- assert_is_not_None (temperature_minimum spa) ;;
  adjust_temperature spa (if py_ne target maximum then maximum else minimum) ;;;
  adjust_temperature spa target ;;;
  print (Text "") ;;;
  cs <- read (controls spa) ;;
  for_each cs sweep_control.

(** Truth value of an optional string: [None] and [''] are false. *)
Definition truthy (host : option string) : bool :=
  match host with
  | Some EmptyString => false
  | Some _ => true
  | None => false
  end.

(** [str(host)] inside an f-string. *)
Definition str_host (host : option string) : string :=
  match host with
  | Some h => h
  | None => "None"
  end.

(** [async with spa: body]: the exit runs on every path out of [body];
    a failed entry raises [SpaConnectionError]. *)
Definition async_with {A} (spa : SpaClient W) (body : M A) : M A :=
  ok <- await (connect spa) Connect ;;
  if ok
  then finally body (await (fun w => (tt, disconnect spa w)) (fun _ => Disconnect))
  else raise SpaConnectionError.

(** The spa [connect_and_listen] works on: [if host: spa = SpaClient(host)]. *)
Definition chosen_spa (host : option string) (spa : option (SpaClient W))
  : option (SpaClient W) :=
  match host with
  | Some h => if truthy host then Some (SpaClient_new lib h) else spa
  | None => spa
  end.

(** The suite of [async with spa:].  The value says whether control fell off
    its end ([true]) or left through [return] ([false]). *)
Definition session (spa : SpaClient W) : M bool :=
  loaded <- await (async_configuration_loaded spa) ConfigurationLoaded ;;
  if negb loaded
  then
    st <- read (spa_state spa) ;;
    (match st with
     | TEST_MODE => print (Text "Config not loaded, spa is in test mode!")
     | _ => print (Text "Config not loaded, something is wrong!")
     end) ;;;
    ret false
  else
    lines <- read (report spa) ;;
    for_each lines print ;;;
    test_controls spa ;;;
    ret true.

(** The [try] suite of [connect_and_listen].  Only when control falls off
    its end does the [else] clause of the [try] run. *)
Definition connect_and_listen_try (host : option string) (spa : option (SpaClient W))
  : M bool :=
  match chosen_spa host spa with
  | None => print (Text "No spa provided") ;;; ret false
  | Some spa => async_with spa (session spa)
  end.

Definition connect_and_listen (host : option string) (spa : option (SpaClient W))
  : M unit :=
  print (Text "******** Testing spa connection and configuration **********") ;;;
  fell_through <-
    try_except (connect_and_listen_try host spa)
      is_connection_error
      (print (Text ("Failed to connect to spa at " ++ str_host host)%string) ;;;
       ret false) ;;
  if fell_through
  then
    print (Text "") ;;;
    print (Text "If something is not working as expected, please create an issue and add the above output at:") ;;;
    print (Text "https://github.com/garbled1/pybalboa/issues/") ;;;
    print (Text "")
  else ret tt.

(** What the trace records of a call of [SpaClient.discover]. *)
Definition discovery_event (first_spa : bool)
  (r : result (list (SpaClient W))) : event :=
  match r with
  | Ok found => Discover first_spa (List.length found)
  | Raise _ => DiscoverFailed first_spa
  end.

Definition run_discovery (first_spa : bool) : M unit :=
  spas <- await_raising (SpaClient_discover lib first_spa)
                        (discovery_event first_spa) ;;
  for_each spas (fun spa => connect_and_listen None (Some spa)).

(** The parsed command line. *)
Record Args : Type := {
  host : option string;
  debug : bool;
  all : bool
}.

(** The branch of [main] on [args.host]. *)
Definition dispatch (args : Args) : M unit :=
  if truthy (host args)
  then connect_and_listen (host args) None
  else
    print (Text "No host provided. Running in discovery mode...") ;;;
    run_discovery (negb (all args)).

(** The [if __name__ == "__main__":] block; the value is the argument of
    [sys.exit]. *)
Definition main (args : Args) : M Z :=
  (if debug args then emit BasicConfigDebug else ret tt) ;;;
  print (Text ("pybalboa version: " ++ version lib)%string) ;;;
  dispatch args ;;;
  ret 0%Z.

(** ** Names for parts of the runs above *)

(** The line that ends an accepted attempt. *)
Definition verdict (control : SpaControl W) (target : Z) (w : W) : line :=
  let r := wait_for_state_check control target budget w in
  match value_of r with
  | Ok _ => StateIsNow (state control (world_of r))
  | Raise _ => StateNotChanged wait (state control (world_of r))
  end.

(** The world in which the loop reaches the option that follows [pre]. *)
Definition reached (control : SpaControl W) (original : Z) (pre : list Z) (w : W)
  : W :=
  world_of (for_each pre (sweep_option control original) w).

(** The part of [test_controls] after the temperature sweep. *)
Definition controls_part (spa : SpaClient W) : M unit :=
  print (Text "") ;;;
  cs <- read (controls spa) ;;
  for_each cs (sweep_control).

(** The status the process ends with: the argument of [sys.exit], or 1 when
    an exception reaches the top level. *)
Definition exit_code (r : result Z) : Z :=
  match r with
  | Ok code => code
  | Raise _ => 1
  end.

End Harness.

(** ** Reading a trace *)

(** The targets of the set requests, in order: one per verification attempt
    on a control, since [adjust_control] awaits [set_state] exactly once. *)
Fixpoint set_requests (tr : list event) : list Z :=
  match tr with
  | [] => []
  | SetState target _ :: rest => target :: set_requests rest
  | _ :: rest => set_requests rest
  end.

(** The temperatures requested through [set_temperature], in order. *)
Fixpoint temperature_requests (tr : list event) : list Q :=
  match tr with
  | [] => []
  | SetTemperature t :: rest => t :: temperature_requests rest
  | _ :: rest => temperature_requests rest
  end.

Definition is_poll (e : event) : bool :=
  match e with Poll _ => true | _ => false end.

(** A sleep, whole or cut short. *)
Definition is_sleep (e : event) : bool :=
  match e with Sleep | Cancelled => true | _ => false end.

(** A set request that was not accepted for dispatch. *)
Definition is_rejection (e : event) : bool :=
  match e with SetState _ false => true | _ => false end.

(** The line written by the [except asyncio.TimeoutError] branch of
    [adjust_control]. *)
Definition is_timeout_report (e : event) : bool :=
  match e with Print (StateNotChanged _ _) => true | _ => false end.

(** The line written when the poll loop saw the target in time. *)
Definition is_confirmation (e : event) : bool :=
  match e with Print (StateIsNow _) => true | _ => false end.

Definition is_connect (e : event) : bool :=
  match e with Connect _ => true | _ => false end.

Definition count (p : event -> bool) (tr : list event) : nat :=
  List.length (filter p tr).

(** The lines of a trace, in order. *)
Fixpoint printed (tr : list event) : list line :=
  match tr with
  | [] => []
  | Print l :: rest => l :: printed rest
  | _ :: rest => printed rest
  end.

Definition is_set_temperature (e : event) : bool :=
  match e with SetTemperature _ => true | _ => false end.

Definition is_disconnect (e : event) : bool :=
  match e with Disconnect => true | _ => false end.

(** A session that was opened. *)
Definition is_connected (e : event) : bool :=
  match e with Connect true => true | _ => false end.

(** A call of [SpaClient.discover], whatever came of it. *)
Definition is_discover (e : event) : bool :=
  match e with Discover _ _ | DiscoverFailed _ => true | _ => false end.


(** The world after [k] whole sleeps of the poll loop. *)
Definition after_sleeps {W : Type} (lib : Library W) (k : nat) (w : W) : W :=
  Nat.iter k (asyncio_sleep lib) w.

(** A control that accepts every request and shows the requested state as
    soon as the request has been awaited. *)
Definition applies_at_once {W : Type} (c : SpaControl W) : Prop :=
  forall target w,
    fst (set_state c target w) = true
    /\ state c (snd (set_state c target w)) = target.

(** The options other than [s], in order. *)
Definition others (s : Z) (opts : list Z) : list Z :=
  filter (fun o => negb (o =? s)%Z) opts.

(** The first line of [connect_and_listen] and the lines of its [else]
    clause. *)
Definition banner : line :=
  Text "******** Testing spa connection and configuration **********".

Definition footer : list line :=
  [Text "";
   Text "If something is not working as expected, please create an issue and add the above output at:";
   Text "https://github.com/garbled1/pybalboa/issues/";
   Text ""].

(** The four lines that open [test_controls]. *)
Definition controls_heading : list line :=
  [Text "******** Testing spa controls **********"; Text "";
   Text "Temperature control"; Text "-------------------"].

(** The events of the temperature poll loop. *)
Definition temperature_quiet (e : event) : Prop :=
  match e with
  | PollTemperature _ | Sleep | Cancelled => True
  | _ => False
  end.

(** The line printed when the configuration has not loaded. *)
Definition not_loaded_message (st : SpaState) : line :=
  match st with
  | TEST_MODE => Text "Config not loaded, spa is in test mode!"
  | OTHER_STATE => Text "Config not loaded, something is wrong!"
  end.

(** The line printed by the [except SpaConnectionError] clause. *)
Definition failed_to_connect (host : option string) : line :=
  Text ("Failed to connect to spa at " ++ str_host host)%string.



(** What must come right after a failure in the trace for the failure to be
    reported: after a session that could not be opened, the line naming the
    host; after the sleep in which a deadline passed, the line saying that
    the state or the temperature was not changed. *)
Definition follows_failure (failed : line) (e : event) (next : list event)
  : Prop :=
  match e with
  | Connect false =>
      match next with
      | Print l :: _ => l = failed
      | _ => False
      end
  | Cancelled =>
      match next with
      | Print (StateNotChanged _ _) :: _ => True
      | Print (SetTemperatureNotChanged _ _) :: _ => True
      | _ => False
      end
  | _ => True
  end.

(** Every failed opening of a session and every timeout in the trace is
    followed at once by its line. *)
Fixpoint failures_reported (failed : line) (tr : list event) : Prop :=
  match tr with
  | [] => True
  | e :: rest => follows_failure failed e rest /\ failures_reported failed rest
  end.

(** The events that stand for a failure that has a line of its own. *)
Definition is_failure (e : event) : bool :=
  match e with Connect false | Cancelled => true | _ => false end.

(** ** Sample devices

    One pump with the options Off = 0, Low = 1 and High = 2; the world is the
    state the pump reports. *)

Module Pump.
Definition Off : Z := 0.
Definition Low : Z := 1.
Definition High : Z := 2.

(** Sleeping changes nothing: these devices react while the set request is
    awaited or not at all. *)
Definition lib : Library Z := {|
  asyncio_sleep := fun w => w;
  cancelled_sleep := fun w => w;
  SpaClient_discover := fun _ w => (Ok [], w);
  SpaClient_new := fun _ => {|
    connect := fun w => (false, w);
    disconnect := fun w => w;
    async_configuration_loaded := fun w => (false, w);
    spa_state := fun _ => OTHER_STATE;
    report := fun _ => [];
    target_temperature := fun _ => None;
    temperature_maximum := fun _ => None;
    temperature_minimum := fun _ => None;
    set_temperature := fun _ w => w;
    controls := fun _ => []
  |};
  version := "0"
|}.

Definition pump (set : Z -> Z -> bool * Z) : SpaControl Z := {|
  name := "Pump 1";
  options := [Off; Low; High];
  state := fun w => w;
  set_state := set
|}.

(** Every request is accepted and applied. *)
Definition obedient : SpaControl Z := pump (fun target _ => (true, target)).

(** Every request is accepted and none is applied. *)
Definition stuck : SpaControl Z := pump (fun _ w => (true, w)).

(** The request for Off is ignored; the others are applied. *)
Definition never_off : SpaControl Z :=
  pump (fun target w => (true, if (target =? Off)%Z then w else target)).

(** A request for Off leaves the pump in High. *)
Definition overshoot : SpaControl Z :=
  pump (fun target _ => (true, if (target =? Off)%Z then High else target)).

(** No request is accepted. *)
Definition rejecting : SpaControl Z := pump (fun _ w => (false, w)).

(** The request for Off is rejected; the others are applied. *)
Definition rejects_off : SpaControl Z :=
  pump (fun target w => if (target =? Off)%Z then (false, w) else (true, target)).


(** A pump whose only option is the one it is in. *)
Definition single : SpaControl Z := {|
  name := "Mister";
  options := [Off];
  state := fun w => w;
  set_state := fun target _ => (true, target)
|}.
End Pump.

(** One spa with a target temperature and one pump; the world is the pair of
    the target temperature and the pump's state. *)

Module Tub.
Definition world : Type := (Q * Z)%type.

Definition pump : SpaControl world := {|
  name := "Pump 1";
  options := [0; 1; 2]%Z;
  state := snd;
  set_state := fun target w => (true, (fst w, target))
|}.

Definition spa : SpaClient world := {|
  connect := fun w => (true, w);
  disconnect := fun w => w;
  async_configuration_loaded := fun w => (true, w);
  spa_state := fun _ => OTHER_STATE;
  report := fun _ => [Text ""; Text "Module identification"];
  target_temperature := fun w => Some (fst w);
  temperature_maximum := fun _ => Some (inject_Z 40);
  temperature_minimum := fun _ => Some (inject_Z 10);
  set_temperature := fun t w => (t, snd w);
  controls := fun _ => [pump]
|}.

(** A spa that has loaded its configuration but reports no target
    temperature. *)
Definition cold : SpaClient world := {|
  connect := fun w => (true, w);
  disconnect := fun w => w;
  async_configuration_loaded := fun w => (true, w);
  spa_state := fun _ => OTHER_STATE;
  report := fun _ => [];
  target_temperature := fun _ => None;
  temperature_maximum := fun _ => Some (inject_Z 40);
  temperature_minimum := fun _ => Some (inject_Z 10);
  set_temperature := fun t w => (t, snd w);
  controls := fun _ => [pump]
|}.

(** A spa in test mode: the session opens, the configuration never loads. *)
Definition unready : SpaClient world := {|
  connect := fun w => (true, w);
  disconnect := fun w => w;
  async_configuration_loaded := fun w => (false, w);
  spa_state := fun _ => TEST_MODE;
  report := fun _ => [];
  target_temperature := fun _ => None;
  temperature_maximum := fun _ => None;
  temperature_minimum := fun _ => None;
  set_temperature := fun _ w => w;
  controls := fun _ => []
|}.

(** A spa that cannot be reached. *)
Definition unreachable : SpaClient world := {|
  connect := fun w => (false, w);
  disconnect := fun w => w;
  async_configuration_loaded := fun w => (false, w);
  spa_state := fun _ => OTHER_STATE;
  report := fun _ => [];
  target_temperature := fun _ => None;
  temperature_maximum := fun _ => None;
  temperature_minimum := fun _ => None;
  set_temperature := fun _ w => w;
  controls := fun _ => []
|}.

(** Discovery finds the spas of [found], or the first of them only. *)
Definition lib (found : list (SpaClient world)) : Library world := {|
  asyncio_sleep := fun w => w;
  cancelled_sleep := fun w => w;
  SpaClient_discover :=
    fun first w => (Ok (if first then firstn 1 found else found), w);
  SpaClient_new := fun _ => spa;
  version := "1.0.0"
|}.

(** No network: discovery fails with a connectivity error. *)
Definition offline : Library world := {|
  asyncio_sleep := fun w => w;
  cancelled_sleep := fun w => w;
  SpaClient_discover := fun _ w => (Raise SpaConnectionError, w);
  SpaClient_new := fun _ => unreachable;
  version := "1.0.0"
|}.

(** Target temperature 30, pump at Low. *)
Definition start : world := (inject_Z 30, 1%Z).

Definition discover_all : Args := {| host := None; debug := false; all := true |}.
Definition discover_first : Args := {| host := None; debug := false; all := false |}.
Definition with_host : Args :=
  {| host := Some "192.168.1.20"; debug := true; all := false |}.
End Tub.

(** A pump that shows a requested state only after two whole sleeps; the
    world is the state shown, the state requested and the sleeps left. *)

Module Slow.
Definition world : Type := (Z * Z * nat)%type.

Definition pump : SpaControl world := {|
  name := "Pump 2";
  options := [0; 1]%Z;
  state := fun w => fst (fst w);
  set_state := fun target w => (true, (fst (fst w), target, 2%nat))
|}.

Definition tick (w : world) : world :=
  match w with
  | (shown, requested, O) => (requested, requested, O)
  | (shown, requested, S O) => (requested, requested, O)
  | (shown, requested, S k) => (shown, requested, k)
  end.

Definition lib : Library world := {|
  asyncio_sleep := tick;
  cancelled_sleep := fun w => w;
  SpaClient_discover := fun _ w => (Ok [], w);
  SpaClient_new := fun _ => {|
    connect := fun w => (false, w);
    disconnect := fun w => w;
    async_configuration_loaded := fun w => (false, w);
    spa_state := fun _ => TEST_MODE;
    report := fun _ => [];
    target_temperature := fun _ => None;
    temperature_maximum := fun _ => None;
    temperature_minimum := fun _ => None;
    set_temperature := fun _ w => w;
    controls := fun _ => [pump]
  |};
  version := "0"
|}.

(** The pump shows Off and nothing is pending. *)
Definition start : world := (0%Z, 0%Z, O).
End Slow.


(** ** Running the monad *)

Example scenario_A :
  set_requests (trace_of (sweep_control Pump.lib 100 Pump.obedient Pump.Low))
  = [Pump.Off; Pump.High; Pump.Low].
Proof. vm_compute. reflexivity. Qed.


Section Running.
Context {W : Type}.

Lemma run_eta {A} (r : result A * W * list event) :
  r = (value_of r, world_of r, trace_of r).
Proof. destruct r as [[v w] t]. reflexivity. Qed.

(** A bind whose first part returns normally. *)
Lemma bind_ok {A B} (m : M A) (f : A -> M B) (w : W) (a : A) :
  value_of (m w) = Ok a ->
  bind m f w =
    (value_of (f a (world_of (m w))),
     world_of (f a (world_of (m w))),
     trace_of (m w) ++ trace_of (f a (world_of (m w)))).
Proof.
  unfold bind, value_of, world_of, trace_of.
  destruct (m w) as [[v w1] t1]. simpl. intros ->.
  destruct (f a w1) as [[v2 w2] t2]. reflexivity.
Qed.

Lemma bind_raise {A B} (m : M A) (f : A -> M B) (w : W) (e : exn) :
  value_of (m w) = Raise e ->
  bind m f w = (Raise e, world_of (m w), trace_of (m w)).
Proof.
  unfold bind, value_of, world_of, trace_of.
  destruct (m w) as [[v w1] t1]. simpl. intros ->. reflexivity.
Qed.

(** A loop whose body always returns normally runs over a concatenation as
    one loop after the other. *)
Lemma for_each_app {A} (body : A -> M unit) (xs ys : list A) (w : W) :
  (forall x w', value_of (body x w') = Ok tt) ->
  for_each (xs ++ ys) body w =
    (value_of (for_each ys body (world_of (for_each xs body w))),
     world_of (for_each ys body (world_of (for_each xs body w))),
     trace_of (for_each xs body w)
       ++ trace_of (for_each ys body (world_of (for_each xs body w)))).
Proof.
  intros Hok. revert w. induction xs as [|x xs IH]; intros w.
  - cbn. destruct (for_each ys body w) as [[v w1] t]. reflexivity.
  - cbn [for_each app]. rewrite !(bind_ok _ _ _ tt) by apply Hok.
    rewrite IH. unfold world_of, trace_of, value_of. cbn [fst snd].
    rewrite app_assoc. reflexivity.
Qed.

Lemma for_each_ok {A} (body : A -> M unit) (xs : list A) (w : W) :
  (forall x w', In x xs -> value_of (body x w') = Ok tt) ->
  value_of (for_each xs body w) = Ok tt.
Proof.
  revert w. induction xs as [|x xs IH]; intros w Hok.
  - reflexivity.
  - simpl. rewrite (bind_ok _ _ _ tt) by (apply Hok; left; reflexivity).
    unfold value_of at 1. simpl. apply IH.
    intros y w' Hy. apply Hok. right. exact Hy.
Qed.

Lemma for_each_cons_ok {A} (body : A -> M unit) (x : A) (xs : list A) (w : W) :
  value_of (body x w) = Ok tt ->
  for_each (x :: xs) body w =
    (value_of (for_each xs body (world_of (body x w))),
     world_of (for_each xs body (world_of (body x w))),
     trace_of (body x w) ++ trace_of (for_each xs body (world_of (body x w)))).
Proof. intros H. cbn [for_each]. rewrite (bind_ok _ _ _ tt H). reflexivity. Qed.
End Running.

(** ** Facts about reading traces *)

Lemma set_requests_app (t1 t2 : list event) :
  set_requests (t1 ++ t2) = set_requests t1 ++ set_requests t2.
Proof.
  induction t1 as [|e t1 IH]; [reflexivity|].
  destruct e; simpl; rewrite IH; reflexivity.
Qed.

Lemma temperature_requests_app (t1 t2 : list event) :
  temperature_requests (t1 ++ t2)
  = temperature_requests t1 ++ temperature_requests t2.
Proof.
  induction t1 as [|e t1 IH]; [reflexivity|].
  destruct e; simpl; rewrite IH; reflexivity.
Qed.

Lemma printed_app (t1 t2 : list event) :
  printed (t1 ++ t2) = printed t1 ++ printed t2.
Proof.
  induction t1 as [|e t1 IH]; [reflexivity|].
  destruct e; simpl; rewrite IH; reflexivity.
Qed.

Lemma count_app (p : event -> bool) (t1 t2 : list event) :
  count p (t1 ++ t2) = (count p t1 + count p t2)%nat.
Proof. unfold count. rewrite filter_app, length_app. reflexivity. Qed.

(** ** The verifier: one set-and-poll cycle *)

Section Verifier.
Context {W : Type}.
Variable lib : Library W.
Variable budget : nat.
Variable control : SpaControl W.

(** The poll loop tests before it sleeps: a state that already equals the
    target ends it at the first read. *)
Lemma wait_for_state_check_first_poll (target : Z) (n : nat) (w : W) :
  state control w = target ->
  wait_for_state_check lib control target n w = (Ok tt, w, [Poll target]).
Proof.
  intros H. destruct n; cbn; unfold bind, read, emit; cbn;
    rewrite H, Z.eqb_refl; reflexivity.
Qed.

(** The poll loop ends in one of two ways. *)
Lemma wait_for_state_check_cases (target : Z) (n : nat) (w : W) :
  let r := wait_for_state_check lib control target n w in
  (value_of r = Ok tt /\ state control (world_of r) = target)
  \/ value_of r = Raise TimeoutError.
Proof.
  revert w. induction n as [|n IH]; intros w; cbn;
    unfold bind, read, emit; cbn;
    destruct (Z.eqb_spec (state control w) target) as [E|E]; cbn.
  - left. split; [reflexivity | exact E].
  - right. reflexivity.
  - left. split; [reflexivity | exact E].
  - specialize (IH (asyncio_sleep lib w)). cbn in IH.
    destruct (wait_for_state_check lib control target n (asyncio_sleep lib w))
      as [[v w1] t]. cbn in *. exact IH.
Qed.

(** It only polls and sleeps. *)
Lemma wait_for_state_check_quiet (target : Z) (n : nat) (w : W) :
  Forall (fun e => is_poll e || is_sleep e = true)
         (trace_of (wait_for_state_check lib control target n w)).
Proof.
  revert w. induction n as [|n IH]; intros w; cbn;
    unfold bind, read, emit; cbn;
    destruct (Z.eqb_spec (state control w) target) as [E|E]; cbn;
    try (repeat constructor; fail).
  specialize (IH (asyncio_sleep lib w)).
  destruct (wait_for_state_check lib control target n (asyncio_sleep lib w))
    as [[v w1] t]. cbn in *.
  repeat constructor. exact IH.
Qed.

Lemma quiet_set_requests (tr : list event) :
  Forall (fun e => is_poll e || is_sleep e = true) tr ->
  set_requests tr = [] /\ printed tr = [] /\ temperature_requests tr = []
  /\ count is_rejection tr = 0%nat /\ count is_timeout_report tr = 0%nat.
Proof.
  induction 1 as [|e tr He _ IH]; [repeat split|].
  destruct e; try discriminate He; cbn; exact IH.
Qed.

(** [adjust_control] in closed form. *)
Lemma adjust_control_run (target : Z) (w : W) :
  let accepted := fst (set_state control target w) in
  let w1 := snd (set_state control target w) in
  let r := wait_for_state_check lib control target budget w1 in
  adjust_control lib budget control target w =
    (Ok tt,
     (if accepted then world_of r else w1),
     [Print (CurrentState (state control w)); Print (SetTo target);
      SetState target accepted]
     ++ (if accepted then trace_of r ++ [Print (verdict lib budget control target w1)] else [])).
Proof.
  cbn. unfold adjust_control, verdict, bind, read, print, emit, await, try_except.
  cbn. destruct (set_state control target w) as [b w1]. cbn.
  destruct b; cbn; [|reflexivity].
  pose proof (wait_for_state_check_cases target budget w1) as Hc. cbn in Hc.
  destruct (wait_for_state_check lib control target budget w1) as [[v w2] t].
  cbn in *. destruct Hc as [[-> _] | ->]; cbn; reflexivity.
Qed.

Lemma adjust_control_ok (target : Z) (w : W) :
  value_of (adjust_control lib budget control target w) = Ok tt.
Proof. rewrite adjust_control_run. reflexivity. Qed.

(** One attempt issues one set request, for its target. *)
Lemma adjust_control_set_requests (target : Z) (w : W) :
  set_requests (trace_of (adjust_control lib budget control target w)) = [target].
Proof.
  rewrite adjust_control_run. unfold trace_of at 1. cbn [snd].
  rewrite set_requests_app. cbn [set_requests app].
  destruct (fst (set_state control target w)); [|reflexivity].
  rewrite set_requests_app.
  destruct (quiet_set_requests _
    (wait_for_state_check_quiet target budget (snd (set_state control target w))))
    as [-> _].
  reflexivity.
Qed.

(** An attempt that neither was rejected nor timed out leaves the control in
    the target state. *)
Lemma adjust_control_confirmed (target : Z) (w : W) :
  let r := adjust_control lib budget control target w in
  count is_rejection (trace_of r) = 0%nat ->
  count is_timeout_report (trace_of r) = 0%nat ->
  state control (world_of r) = target.
Proof.
  cbn zeta. rewrite adjust_control_run. unfold verdict.
  pose proof (wait_for_state_check_cases target budget
                (snd (set_state control target w))) as Hc.
  pose proof (wait_for_state_check_quiet target budget
                (snd (set_state control target w))) as Hq.
  apply quiet_set_requests in Hq. destruct Hq as (_ & _ & _ & _ & Hq).
  cbn zeta in Hc.
  destruct (wait_for_state_check lib control target budget
              (snd (set_state control target w))) as [[v w2] t].
  unfold value_of, world_of, trace_of in *. cbn [fst snd] in *.
  destruct (fst (set_state control target w)); [|discriminate].
  intros _. rewrite !count_app, Hq.
  destruct Hc as [[-> Hs] | ->].
  - intros _. exact Hs.
  - cbn. discriminate.
Qed.
End Verifier.

(** ** The sweep of one control *)

Section Sweep.
Context {W : Type}.
Variable lib : Library W.
Variable budget : nat.
Variable control : SpaControl W.

Lemma bind_read {A B} (f : W -> A) (k : A -> M B) (w : W) :
  bind (read f) k w = k (f w) w.
Proof.
  unfold bind, read. destruct (k (f w) w) as [[v w1] t]. reflexivity.
Qed.

Lemma bind_print {B} (l : line) (k : unit -> M B) (w : W) :
  bind (print l) k w
  = (value_of (k tt w), world_of (k tt w), Print l :: trace_of (k tt w)).
Proof.
  unfold bind, print, emit. destruct (k tt w) as [[v w1] t]. reflexivity.
Qed.

(** The loop body: the guard reads the live state. *)
Lemma sweep_option_run (original option : Z) (w : W) :
  sweep_option lib budget control original option w =
    if (option =? original)%Z || (option =? state control w)%Z
    then (Ok tt, w, [])
    else adjust_control lib budget control option w.
Proof.
  unfold sweep_option. rewrite bind_read.
  destruct ((option =? original)%Z || (option =? state control w)%Z);
    reflexivity.
Qed.

Lemma sweep_option_ok (original option : Z) (w : W) :
  value_of (sweep_option lib budget control original option w) = Ok tt.
Proof.
  rewrite sweep_option_run.
  destruct ((option =? original)%Z || (option =? state control w)%Z);
    [reflexivity | apply adjust_control_ok].
Qed.

Lemma restore_run (original : Z) (w : W) :
  restore lib budget control original w =
    if (state control w =? original)%Z
    then (Ok tt, w, [])
    else adjust_control lib budget control original w.
Proof.
  unfold restore. rewrite bind_read.
  destruct (state control w =? original)%Z; reflexivity.
Qed.

Lemma restore_ok (original : Z) (w : W) :
  value_of (restore lib budget control original w) = Ok tt.
Proof.
  rewrite restore_run.
  destruct (state control w =? original)%Z;
    [reflexivity | apply adjust_control_ok].
Qed.

Lemma sweep_options_ok (original : Z) (opts : list Z) (w : W) :
  value_of (for_each opts (sweep_option lib budget control original) w) = Ok tt.
Proof. apply for_each_ok. intros. apply sweep_option_ok. Qed.

(** [sweep_control] in closed form: header, loop, restore, blank line. *)
Lemma sweep_control_run (w : W) :
  let original := state control w in
  let r1 := sweep_options lib budget control original w in
  let r2 := restore lib budget control original (world_of r1) in
  sweep_control lib budget control w =
    (Ok tt, world_of r2,
     [Print (Text (name control ++ " control")%string);
      Print (Text (dashes (String.length (name control) + 8)))]
     ++ trace_of r1 ++ trace_of r2 ++ [Print (Text "")]).
Proof.
  cbn zeta. unfold sweep_control.
  rewrite !bind_print, bind_read.
  rewrite (bind_ok _ _ _ tt) by apply sweep_options_ok.
  rewrite (bind_ok _ _ _ tt) by apply restore_ok.
  cbn [value_of world_of trace_of fst snd print emit app]. reflexivity.
Qed.

Lemma sweep_control_trace (w : W) :
  trace_of (sweep_control lib budget control w) =
    [Print (Text (name control ++ " control")%string);
     Print (Text (dashes (String.length (name control) + 8)))]
    ++ trace_of (sweep_options lib budget control (state control w) w)
    ++ trace_of (restore lib budget control (state control w)
                   (world_of (sweep_options lib budget control (state control w) w)))
    ++ [Print (Text "")].
Proof. rewrite sweep_control_run. reflexivity. Qed.

Lemma sweep_control_world (w : W) :
  world_of (sweep_control lib budget control w) =
    world_of (restore lib budget control (state control w)
                (world_of (sweep_options lib budget control (state control w) w))).
Proof. rewrite sweep_control_run. reflexivity. Qed.

Lemma sweep_control_ok (w : W) :
  value_of (sweep_control lib budget control w) = Ok tt.
Proof. rewrite sweep_control_run. reflexivity. Qed.

(** Every request of the loop targets one of the options it ran over, and
    never the original state. *)
Lemma loop_requests (original : Z) (opts : list Z) (w : W) (x : Z) :
  In x (set_requests
          (trace_of (for_each opts (sweep_option lib budget control original) w))) ->
  In x opts /\ x <> original.
Proof.
  revert w. induction opts as [|o opts IH]; intros w.
  - cbn. intros [].
  - rewrite for_each_cons_ok by apply sweep_option_ok.
    unfold trace_of at 1. cbn [snd]. rewrite set_requests_app, in_app_iff.
    intros [H|H].
    + rewrite sweep_option_run in H.
      destruct (Z.eqb_spec o original) as [E|E]; cbn [orb] in H; [destruct H|].
      destruct (o =? state control w)%Z; [destruct H|].
      rewrite adjust_control_set_requests in H. destruct H as [<-|[]].
      split; [left; reflexivity | exact E].
    + apply IH in H. destruct H as [H1 H2]. split; [right|]; assumption.
Qed.

Lemma loop_count_absent (original : Z) (opts : list Z) (w : W) (x : Z) :
  ~ In x opts ->
  count_occ Z.eq_dec
    (set_requests
       (trace_of (for_each opts (sweep_option lib budget control original) w))) x
  = 0%nat.
Proof.
  intros H. apply count_occ_not_In. intros Hin.
  apply loop_requests in Hin. tauto.
Qed.

Lemma restore_requests (original : Z) (w : W) :
  set_requests (trace_of (restore lib budget control original w)) =
    if (state control w =? original)%Z then [] else [original].
Proof.
  rewrite restore_run. destruct (state control w =? original)%Z;
    [reflexivity | apply adjust_control_set_requests].
Qed.

Lemma sweep_option_requests (original option : Z) (w : W) :
  set_requests (trace_of (sweep_option lib budget control original option w)) =
    if (option =? original)%Z || (option =? state control w)%Z
    then [] else [option].
Proof.
  rewrite sweep_option_run.
  destruct ((option =? original)%Z || (option =? state control w)%Z);
    [reflexivity | apply adjust_control_set_requests].
Qed.

(** The set requests of a whole sweep, split around one option. *)
Lemma sweep_control_requests (pre post : list Z) (o : Z) (w : W) :
  options control = pre ++ o :: post ->
  let original := state control w in
  let w1 := reached lib budget control original pre w in
  let w2 := world_of (sweep_option lib budget control original o w1) in
  let r3 := for_each post (sweep_option lib budget control original) w2 in
  set_requests (trace_of (sweep_control lib budget control w)) =
    set_requests
      (trace_of (for_each pre (sweep_option lib budget control original) w))
    ++ (if (o =? original)%Z || (o =? state control w1)%Z then [] else [o])
    ++ set_requests (trace_of r3)
    ++ (if (state control (world_of r3) =? original)%Z then [] else [original]).
Proof.
  intros Hopts. cbn zeta. rewrite sweep_control_run.
  unfold trace_of at 1. cbn [snd].
  rewrite !set_requests_app. cbn [set_requests app].
  rewrite app_nil_r, restore_requests.
  unfold sweep_options. rewrite Hopts.
  rewrite for_each_app by apply sweep_option_ok.
  rewrite for_each_cons_ok by apply sweep_option_ok.
  unfold trace_of at 1, world_of at 1. cbn [fst snd].
  unfold trace_of at 2, world_of at 1. cbn [fst snd].
  rewrite !set_requests_app, sweep_option_requests.
  unfold reached. rewrite <- !app_assoc. reflexivity.
Qed.
(** Whatever the outcome of the attempt on one option, the sweep goes on: it
    returns normally, every later option that passes the loop's guard is
    requested, and so is the original state when the control is not in it
    after the loop. *)
Lemma sweep_goes_on (pre post : list Z) (o : Z) (w : W) :
  options control = pre ++ o :: post ->
  value_of (sweep_control lib budget control w) = Ok tt
  /\ (forall mid p post',
        post = mid ++ p :: post' ->
        p <> state control w ->
        state control (reached lib budget control (state control w) (pre ++ o :: mid) w) <> p ->
        In p (set_requests (trace_of (sweep_control lib budget control w))))
  /\ (state control (reached lib budget control (state control w) (options control) w)
        <> state control w ->
      In (state control w)
         (set_requests (trace_of (sweep_control lib budget control w)))).
Proof.
  intros Hopts. split; [apply sweep_control_ok|]. split.
  - intros mid p post' Hpost Hp Hlive.
    assert (H : options control = (pre ++ o :: mid) ++ p :: post').
    { rewrite Hopts, Hpost, <- app_assoc. reflexivity. }
    rewrite (sweep_control_requests (pre ++ o :: mid) post' p w H).
    apply in_or_app. right. apply in_or_app. left.
    destruct (Z.eqb_spec p (state control w)) as [E|_]; [contradiction|].
    cbn [orb].
    destruct (Z.eqb_spec p
      (state control (reached lib budget control (state control w) (pre ++ o :: mid) w))) as [E|_];
      [congruence|].
    left. reflexivity.
  - intros Hend. rewrite sweep_control_trace, !set_requests_app.
    apply in_or_app. right. apply in_or_app. right.
    apply in_or_app. left. rewrite restore_requests.
    unfold reached, sweep_options in *.
    destruct (Z.eqb_spec
      (state control
         (world_of (for_each (options control)
                      (sweep_option lib budget control (state control w)) w)))
      (state control w)) as [E|_]; [contradiction|].
    left. reflexivity.
Qed.
End Sweep.

(** ** Claims about the sweep of one control *)

Section SweepClaims.
Context {W : Type}.
Variable lib : Library W.
Variable budget : nat.

(** C1 (as amended).  For a control whose option list has no duplicates, one
    sweep issues at most one verification attempt for each option other than
    the starting state: exactly one when the control's live state differs
    from the option at the moment the loop reaches it, and none when the
    control already reports that option then. *)
Theorem sweep_attempts_per_option
  (control : SpaControl W) (w : W) (pre post : list Z) (o : Z) :
  options control = pre ++ o :: post ->
  NoDup (options control) ->
  o <> state control w ->
  count_occ Z.eq_dec
    (set_requests (trace_of (sweep_control lib budget control w))) o
  = if (state control (reached lib budget control (state control w) pre w) =? o)%Z
    then 0%nat else 1%nat.
Proof.
  intros Hopts Hnd Ho.
  rewrite (sweep_control_requests lib budget control pre post o w Hopts).
  rewrite Hopts in Hnd. apply NoDup_remove_2 in Hnd.
  rewrite !count_occ_app.
  rewrite loop_count_absent by (intros H; apply Hnd, in_or_app; left; exact H).
  rewrite loop_count_absent by (intros H; apply Hnd, in_or_app; right; exact H).
  destruct (Z.eqb_spec o (state control w)) as [E|_]; [contradiction|].
  cbn [orb]. rewrite (Z.eqb_sym o).
  replace (count_occ Z.eq_dec
             (if (state control
                    (world_of
                       (for_each post
                          (sweep_option lib budget control (state control w))
                          (world_of
                             (sweep_option lib budget control (state control w) o
                                (reached lib budget control (state control w) pre w)))))
                  =? state control w)%Z
              then [] else [state control w]) o) with 0%nat.
  - destruct (state control (reached lib budget control (state control w) pre w)
              =? o)%Z; cbn; [reflexivity|].
    destruct (Z.eq_dec o o); [reflexivity | contradiction].
  - match goal with |- _ = count_occ _ (if ?b then _ else _) _ => destruct b end;
      cbn; [reflexivity|].
    destruct (Z.eq_dec (state control w) o); [congruence | reflexivity].
Qed.

(** C2.  If no set request of a sweep was rejected and no attempt timed out,
    the control ends the sweep in the state it started in. *)
Theorem sweep_restores_original_state (control : SpaControl W) (w : W) :
  count is_rejection (trace_of (sweep_control lib budget control w)) = 0%nat ->
  count is_timeout_report (trace_of (sweep_control lib budget control w)) = 0%nat ->
  state control (world_of (sweep_control lib budget control w)) = state control w.
Proof.
  rewrite sweep_control_trace, sweep_control_world.
  rewrite !count_app. intros Hrej Hto.
  set (w1 := world_of (sweep_options lib budget control (state control w) w)) in *.
  assert (Hr : count is_rejection
                 (trace_of (restore lib budget control (state control w) w1)) = 0%nat)
    by lia.
  assert (Ht : count is_timeout_report
                 (trace_of (restore lib budget control (state control w) w1)) = 0%nat)
    by lia.
  clear Hrej Hto. rewrite restore_run in *.
  destruct (Z.eqb_spec (state control w1) (state control w)) as [E|E].
  - exact E.
  - apply adjust_control_confirmed; assumption.
Qed.

(** C3.  When the set operation reports that the request was not accepted,
    the attempt ends there: it has printed the two lines that precede the
    request, it reads the state no further, polls nothing and sleeps never,
    and the world is the one the set operation left. *)
Theorem rejected_request_is_not_polled
  (control : SpaControl W) (target : Z) (w : W) :
  fst (set_state control target w) = false ->
  adjust_control lib budget control target w =
    (Ok tt, snd (set_state control target w),
     [Print (CurrentState (state control w)); Print (SetTo target);
      SetState target false])
  /\ count is_poll (trace_of (adjust_control lib budget control target w)) = 0%nat
  /\ count is_sleep (trace_of (adjust_control lib budget control target w)) = 0%nat.
Proof.
  intros H. rewrite adjust_control_run, H. repeat split.
Qed.

(** C10.  A control all of whose options are the state it is in gets no set
    request: the sweep prints its heading and a blank line and leaves the
    world untouched. *)
Theorem single_option_sweep_is_silent (control : SpaControl W) (w : W) :
  (forall o, In o (options control) -> o = state control w) ->
  sweep_control lib budget control w =
    (Ok tt, w,
     [Print (Text (name control ++ " control")%string);
      Print (Text (dashes (String.length (name control) + 8)));
      Print (Text "")])
  /\ set_requests (trace_of (sweep_control lib budget control w)) = []
  /\ state control (world_of (sweep_control lib budget control w))
     = state control w.
Proof.
  intros Hall.
  assert (Hloop : sweep_options lib budget control (state control w) w
                  = (Ok tt, w, [])).
  { unfold sweep_options. induction (options control) as [|o opts IH].
    - reflexivity.
    - rewrite for_each_cons_ok by apply sweep_option_ok.
      rewrite sweep_option_run.
      rewrite (Hall o) by (left; reflexivity). rewrite Z.eqb_refl.
      cbn [orb world_of trace_of value_of fst snd app].
      rewrite IH by (intros x Hx; apply Hall; right; exact Hx).
      reflexivity. }
  assert (Hrun : sweep_control lib budget control w =
    (Ok tt, w,
     [Print (Text (name control ++ " control")%string);
      Print (Text (dashes (String.length (name control) + 8)));
      Print (Text "")])).
  { rewrite sweep_control_run, Hloop.
    cbn [world_of trace_of fst snd]. rewrite restore_run, Z.eqb_refl.
    reflexivity. }
  rewrite Hrun. repeat split.
Qed.
(** C4 (as amended).  An attempt that times out does not abort the sweep of
    its control.  The attempt is one of the sweep's requests and the sweep
    returns normally; every later option other than
    the original state is attempted unless the control already reports that
    option when the loop reaches it; and the restore of the original state is
    attempted whenever the control is not in that state after the loop. *)
Theorem timeout_does_not_abort_sweep
  (control : SpaControl W) (w : W) (pre post : list Z) (o : Z) :
  options control = pre ++ o :: post ->
  count is_timeout_report
    (trace_of (sweep_option lib budget control (state control w) o
                 (reached lib budget control (state control w) pre w)))
    = 1%nat ->
  In o (set_requests (trace_of (sweep_control lib budget control w)))
  /\ value_of (sweep_control lib budget control w) = Ok tt
  /\ (forall mid p post',
        post = mid ++ p :: post' ->
        p <> state control w ->
        state control
          (reached lib budget control (state control w) (pre ++ o :: mid) w) <> p ->
        In p (set_requests (trace_of (sweep_control lib budget control w))))
  /\ (state control
        (reached lib budget control (state control w) (options control) w)
        <> state control w ->
      In (state control w)
         (set_requests (trace_of (sweep_control lib budget control w)))).
Proof.
  intros Hopts Hto. split.
  - rewrite sweep_option_run in Hto.
    rewrite (sweep_control_requests lib budget control pre post o w Hopts).
    destruct ((o =? state control w)%Z
              || (o =? state control
                         (reached lib budget control (state control w) pre w))%Z).
    + discriminate Hto.
    + apply in_or_app. right. left. reflexivity.
  - exact (sweep_goes_on lib budget control pre post o w Hopts).
Qed.


(** C7 (as amended).  A rejected set request ends its attempt without any
    line about the outcome: the attempt's output is the two lines printed
    before the request.  The sweep is not aborted: it returns normally, later
    options are attempted under the loop's guard, and the original state is
    requested if the control is not in it after the loop. *)
Theorem rejection_is_silent_and_sweep_goes_on
  (control : SpaControl W) (w : W) (pre post : list Z) (o : Z) :
  options control = pre ++ o :: post ->
  o <> state control w ->
  o <> state control (reached lib budget control (state control w) pre w) ->
  fst (set_state control o (reached lib budget control (state control w) pre w))
    = false ->
  printed (trace_of (sweep_option lib budget control (state control w) o
                       (reached lib budget control (state control w) pre w)))
    = [CurrentState
         (state control (reached lib budget control (state control w) pre w));
       SetTo o]
  /\ value_of (sweep_control lib budget control w) = Ok tt
  /\ (forall mid p post',
        post = mid ++ p :: post' ->
        p <> state control w ->
        state control
          (reached lib budget control (state control w) (pre ++ o :: mid) w) <> p ->
        In p (set_requests (trace_of (sweep_control lib budget control w))))
  /\ (state control
        (reached lib budget control (state control w) (options control) w)
        <> state control w ->
      In (state control w)
         (set_requests (trace_of (sweep_control lib budget control w)))).
Proof.
  intros Hopts Ho Hlive Hrej. split.
  - rewrite sweep_option_run.
    destruct (Z.eqb_spec o (state control w)) as [E|_]; [contradiction|].
    destruct (Z.eqb_spec o
      (state control (reached lib budget control (state control w) pre w)))
      as [E|_]; [contradiction|].
    cbn [orb]. rewrite adjust_control_run, Hrej. reflexivity.
  - exact (sweep_goes_on lib budget control pre post o w Hopts).
Qed.
End SweepClaims.

(** ** Which events a coroutine can emit *)

Section Emits.
Context {W : Type}.
Variable P : event -> Prop.

Lemma emits_only_ret {A} (a : A) : emits_only P (@ret W A a).
Proof. intros w. constructor. Qed.

Lemma emits_only_raise {A} (e : exn) : emits_only P (@raise W A e).
Proof. intros w. constructor. Qed.

Lemma emits_only_read {A} (f : W -> A) : emits_only P (read f).
Proof. intros w. constructor. Qed.

Lemma emits_only_emit (e : event) : P e -> emits_only P (@emit W e).
Proof. intros H w. repeat constructor. exact H. Qed.

Lemma emits_only_print (l : line) : P (Print l) -> emits_only P (@print W l).
Proof. apply emits_only_emit. Qed.

Lemma emits_only_await {A} (f : W -> A * W) (ev : A -> event) :
  (forall a, P (ev a)) -> emits_only P (await f ev).
Proof.
  intros H w. unfold await, trace_of. destruct (f w) as [a w1].
  repeat constructor. apply H.
Qed.

Lemma emits_only_bind {A B} (m : @M W A) (f : A -> @M W B) :
  emits_only P m -> (forall a, emits_only P (f a)) -> emits_only P (bind m f).
Proof.
  intros Hm Hf w. specialize (Hm w). unfold bind, trace_of in *.
  destruct (m w) as [[[a|e] w1] t1]; cbn in *; [|exact Hm].
  specialize (Hf a w1). unfold trace_of in Hf.
  destruct (f a w1) as [[v w2] t2]. cbn in *.
  apply Forall_app. split; assumption.
Qed.

Lemma emits_only_try_except {A} (m h : @M W A) (catches : exn -> bool) :
  emits_only P m -> emits_only P h -> emits_only P (try_except m catches h).
Proof.
  intros Hm Hh w. specialize (Hm w). unfold try_except, trace_of in *.
  destruct (m w) as [[[a|e] w1] t1]; cbn in *; [exact Hm|].
  destruct (catches e); [|exact Hm].
  specialize (Hh w1). unfold trace_of in Hh.
  destruct (h w1) as [[v w2] t2]. cbn in *.
  apply Forall_app. split; assumption.
Qed.

Lemma emits_only_finally {A} (m : @M W A) (fin : @M W unit) :
  emits_only P m -> emits_only P fin -> emits_only P (finally m fin).
Proof.
  intros Hm Hf w. specialize (Hm w). unfold finally, trace_of in *.
  destruct (m w) as [[v w1] t1]. cbn in *.
  specialize (Hf w1). unfold trace_of in Hf.
  destruct (fin w1) as [[[u|e] w2] t2]; cbn in *;
    apply Forall_app; split; assumption.
Qed.

Lemma emits_only_for_each {A} (xs : list A) (body : A -> @M W unit) :
  (forall x, emits_only P (body x)) -> emits_only P (for_each xs body).
Proof.
  intros H. induction xs as [|x xs IH]; cbn [for_each].
  - apply emits_only_ret.
  - apply emits_only_bind; [apply H | intros _; exact IH].
Qed.

Lemma emits_only_if {A} (b : bool) (m1 m2 : @M W A) :
  emits_only P m1 -> emits_only P m2 -> emits_only P (if b then m1 else m2).
Proof. destruct b; auto. Qed.
End Emits.

(** Splits a goal [emits_only P m] along the structure of [m]. *)
Ltac emits :=
  repeat (intros;
          first [ apply emits_only_bind | apply emits_only_for_each
                | apply emits_only_try_except | apply emits_only_finally
                | apply emits_only_if | apply emits_only_ret
                | apply emits_only_raise | apply emits_only_read
                | apply emits_only_await | apply emits_only_print
                | apply emits_only_emit
                | match goal with
                  | |- emits_only _ (match ?x with _ => _ end) => destruct x
                  end
                | reflexivity ]).

Lemma no_temperature_requests (tr : list event) :
  Forall (fun e => is_set_temperature e = false) tr ->
  temperature_requests tr = [].
Proof.
  induction 1 as [|e tr He _ IH]; [reflexivity|].
  destruct e; try discriminate He; exact IH.
Qed.

Lemma no_count (p : event -> bool) (tr : list event) :
  Forall (fun e => p e = false) tr -> count p tr = 0%nat.
Proof.
  induction 1 as [|e tr He _ IH]; [reflexivity|].
  unfold count in *. cbn. rewrite He. exact IH.
Qed.

Section HarnessEmits.
Context {W : Type}.
Variable lib : Library W.
Variable budget : nat.
Variable P : event -> Prop.

Lemma emits_only_wait_for_state_check (c : SpaControl W) (target : Z) (n : nat) :
  (forall s, P (Poll s)) -> P Sleep -> P Cancelled ->
  emits_only P (wait_for_state_check lib c target n).
Proof.
  intros Hp Hs Hc. induction n as [|n IH]; cbn [wait_for_state_check]; emits; auto.
Qed.

Lemma emits_only_wait_for_temperature_check (spa : SpaClient W) (t : Q) (n : nat) :
  (forall s, P (PollTemperature s)) -> P Sleep -> P Cancelled ->
  emits_only P (wait_for_temperature_check lib spa t n).
Proof.
  intros Hp Hs Hc. induction n as [|n IH]; cbn [wait_for_temperature_check];
    emits; auto.
Qed.

(** What a control's sweep emits: lines, set requests, polls and sleeps. *)
Lemma emits_only_sweep_control (c : SpaControl W) :
  (forall l, P (Print l)) -> (forall t b, P (SetState t b)) ->
  (forall s, P (Poll s)) -> P Sleep -> P Cancelled ->
  emits_only P (sweep_control lib budget c).
Proof.
  intros Hl Hset Hp Hs Hc.
  unfold sweep_control, sweep_options, restore, sweep_option, adjust_control.
  emits; auto using emits_only_wait_for_state_check.
Qed.

Lemma emits_only_adjust_temperature (spa : SpaClient W) (t : Q) :
  (forall l, P (Print l)) -> (forall x, P (SetTemperature x)) ->
  (forall s, P (PollTemperature s)) -> P Sleep -> P Cancelled ->
  emits_only P (adjust_temperature lib budget spa t).
Proof.
  intros Hl Hset Hp Hs Hc. unfold adjust_temperature.
  emits; auto using emits_only_wait_for_temperature_check.
Qed.

Lemma emits_only_test_controls (spa : SpaClient W) :
  (forall l, P (Print l)) -> (forall t b, P (SetState t b)) ->
  (forall s, P (Poll s)) -> (forall x, P (SetTemperature x)) ->
  (forall s, P (PollTemperature s)) -> P Sleep -> P Cancelled ->
  emits_only P (test_controls lib budget spa).
Proof.
  intros Hl Hset Hp Hst Hpt Hs Hc. unfold test_controls, assert_is_not_None.
  emits;
    auto using emits_only_wait_for_state_check,
               emits_only_wait_for_temperature_check.
Qed.
End HarnessEmits.

(** ** The temperature sweep *)

Section Temperature.
Context {W : Type}.
Variable lib : Library W.
Variable budget : nat.
Variable spa : SpaClient W.

Lemma wait_for_temperature_check_cases (t : Q) (n : nat) (w : W) :
  value_of (wait_for_temperature_check lib spa t n w) = Ok tt
  \/ value_of (wait_for_temperature_check lib spa t n w) = Raise TimeoutError.
Proof.
  revert w. induction n as [|n IH]; intros w; cbn;
    unfold bind, read, emit; cbn;
    destruct (py_ne_opt (target_temperature spa w) t); cbn; auto.
  specialize (IH (asyncio_sleep lib w)).
  destruct (wait_for_temperature_check lib spa t n (asyncio_sleep lib w))
    as [[v w1] tr]. exact IH.
Qed.

Lemma adjust_temperature_ok (t : Q) (w : W) :
  value_of (adjust_temperature lib budget spa t w) = Ok tt.
Proof.
  unfold adjust_temperature, bind, read, print, emit, await, try_except. cbn.
  pose proof (wait_for_temperature_check_cases t budget (set_temperature spa t w))
    as Hc.
  destruct (wait_for_temperature_check lib spa t budget (set_temperature spa t w))
    as [[v w1] tr]. cbn in *.
  destruct Hc as [-> | ->]; reflexivity.
Qed.

(** One call of [adjust_temperature] issues one request, for its argument. *)
Lemma adjust_temperature_requests (t : Q) (w : W) :
  temperature_requests (trace_of (adjust_temperature lib budget spa t w)) = [t].
Proof.
  unfold adjust_temperature, bind, read, print, emit, await, try_except. cbn.
  pose proof (wait_for_temperature_check_cases t budget (set_temperature spa t w))
    as Hc.
  pose proof (emits_only_wait_for_temperature_check lib
                (fun e => is_set_temperature e = false) spa t budget
                (fun _ => eq_refl) eq_refl eq_refl (set_temperature spa t w)) as Hq.
  apply no_temperature_requests in Hq.
  destruct (wait_for_temperature_check lib spa t budget (set_temperature spa t w))
    as [[v w1] tr]. cbn in *.
  destruct Hc as [-> | ->]; cbn; rewrite temperature_requests_app, Hq;
    reflexivity.
Qed.

Lemma bind_assert {A B} (f : W -> option A) (k : A -> M B) (w : W) (a : A) :
  f w = Some a -> bind (assert_is_not_None f) k w = k a w.
Proof.
  intros H. unfold assert_is_not_None, bind, read, ret. rewrite H.
  destruct (k a w) as [[v w1] t]. reflexivity.
Qed.

Lemma bind_assert_fails {A B} (f : W -> option A) (k : A -> M B) (w : W) :
  f w = None ->
  bind (assert_is_not_None f) k w = (Raise AssertionError, w, []).
Proof.
  intros H. unfold assert_is_not_None, bind, read, raise. rewrite H.
  reflexivity.
Qed.

Lemma controls_part_ok (w : W) :
  value_of (controls_part lib budget spa w) = Ok tt.
Proof.
  unfold controls_part. rewrite bind_print, bind_read.
  cbn [value_of fst]. apply for_each_ok. intros. apply sweep_control_ok.
Qed.

(** [test_controls] in closed form, when the three temperatures are known. *)
Lemma test_controls_run (w : W) (t mx mn : Q) :
  target_temperature spa w = Some t ->
  temperature_maximum spa w = Some mx ->
  temperature_minimum spa w = Some mn ->
  let away := if py_ne t mx then mx else mn in
  let r1 := adjust_temperature lib budget spa away w in
  let r2 := adjust_temperature lib budget spa t (world_of r1) in
  let r3 := controls_part lib budget spa (world_of r2) in
  test_controls lib budget spa w =
    (Ok tt, world_of r3,
     [Print (Text "******** Testing spa controls **********");
      Print (Text ""); Print (Text "Temperature control");
      Print (Text "-------------------")]
     ++ trace_of r1 ++ trace_of r2 ++ trace_of r3).
Proof.
  intros Ht Hmx Hmn. cbn zeta. unfold test_controls.
  rewrite !bind_print.
  rewrite (bind_assert _ _ _ _ Ht), (bind_assert _ _ _ _ Hmx),
    (bind_assert _ _ _ _ Hmn).
  rewrite (bind_ok _ _ _ tt) by apply adjust_temperature_ok.
  rewrite (bind_ok _ _ _ tt) by apply adjust_temperature_ok.
  fold (controls_part lib budget spa).
  cbn [value_of world_of trace_of fst snd app].
  rewrite controls_part_ok. reflexivity.
Qed.

(** C5.  The temperature sweep makes exactly two set requests: the first for
    the maximum when the current target differs from the maximum and for the
    minimum otherwise, the second for the target captured at the start. *)
Theorem temperature_sweep_requests (w : W) (t mx mn : Q) :
  target_temperature spa w = Some t ->
  temperature_maximum spa w = Some mx ->
  temperature_minimum spa w = Some mn ->
  temperature_requests (trace_of (test_controls lib budget spa w))
  = [if Qeq_bool t mx then mn else mx; t].
Proof.
  intros Ht Hmx Hmn. rewrite (test_controls_run w t mx mn Ht Hmx Hmn).
  cbn [trace_of snd]. rewrite !temperature_requests_app.
  rewrite !adjust_temperature_requests. cbn [temperature_requests app].
  rewrite (no_temperature_requests (trace_of (controls_part lib budget spa _))).
  - unfold py_ne. destruct (Qeq_bool t mx); reflexivity.
  - unfold controls_part.
    apply emits_only_bind; [apply emits_only_print; reflexivity|].
    intros _. apply emits_only_bind; [apply emits_only_read|].
    intros cs. apply emits_only_for_each. intros c.
    apply emits_only_sweep_control; reflexivity.
Qed.
End Temperature.

(** ** The orchestrator *)

Section Orchestrator.
Context {W : Type}.
Variable lib : Library W.
Variable budget : nat.

Lemma for_each_print_run (lines : list line) (w : W) :
  for_each lines print w = (Ok tt, w, map Print lines).
Proof.
  induction lines as [|l lines IH]; [reflexivity|].
  cbn [for_each]. rewrite bind_print, IH. reflexivity.
Qed.

(** [async with] in closed form. *)
Lemma async_with_run {A} (spa : SpaClient W) (body : M A) (w : W) :
  async_with spa body w =
    if fst (connect spa w)
    then (value_of (body (snd (connect spa w))),
          disconnect spa (world_of (body (snd (connect spa w)))),
          Connect true :: trace_of (body (snd (connect spa w))) ++ [Disconnect])
    else (Raise SpaConnectionError, snd (connect spa w), [Connect false]).
Proof.
  unfold async_with, bind, await, finally, raise.
  destruct (connect spa w) as [ok w1]. destruct ok; cbn; [|reflexivity].
  destruct (body w1) as [[v w2] t]. reflexivity.
Qed.


(** [run_discovery] in closed form. *)
Lemma run_discovery_run (first : bool) (w : W) :
  run_discovery lib budget first w =
    match fst (SpaClient_discover lib first w) with
    | Ok found =>
        let r := for_each found
                   (fun spa => connect_and_listen lib budget None (Some spa))
                   (snd (SpaClient_discover lib first w)) in
        (value_of r, world_of r, Discover first (List.length found) :: trace_of r)
    | Raise e =>
        (Raise e, snd (SpaClient_discover lib first w), [DiscoverFailed first])
    end.
Proof.
  unfold run_discovery, bind, await_raising.
  destruct (SpaClient_discover lib first w) as [[found|e] w1]; cbn [fst snd];
    [|reflexivity].
  destruct (for_each found _ w1) as [[v w2] t]. destruct v; reflexivity.
Qed.

(** [main] in closed form, when [dispatch] returns normally. *)
Lemma main_run (args : Args) (w : W) :
  value_of (dispatch lib budget args w) = Ok tt ->
  main lib budget args w =
    (Ok 0%Z, world_of (dispatch lib budget args w),
     (if debug args then [BasicConfigDebug] else [])
     ++ Print (Text ("pybalboa version: " ++ version lib)%string)
        :: trace_of (dispatch lib budget args w)).
Proof.
  intros H. unfold main.
  destruct (debug args); unfold bind, print, emit, ret; cbv beta iota;
    destruct (dispatch lib budget args w) as [[v w1] t]; cbn [value_of fst] in H; subst v;
    cbv beta iota; rewrite ?app_nil_r; reflexivity.
Qed.

(** An exception that leaves [dispatch] leaves [main]. *)
Lemma main_raises (args : Args) (w : W) (e : exn) :
  value_of (dispatch lib budget args w) = Raise e ->
  value_of (main lib budget args w) = Raise e.
Proof.
  intros H. unfold main.
  destruct (debug args); unfold bind, print, emit, ret; cbv beta iota;
    destruct (dispatch lib budget args w) as [[v w1] t]; cbn [value_of fst] in H; subst v;
    reflexivity.
Qed.

(** C9 (as amended).  When discovery finds no spa, the run makes no
    connection and no sweep and prints nothing after the discovery notice,
    so no line reports the empty result; the process ends with status 0. *)
Theorem empty_discovery_is_silent (args : Args) (w : W) :
  truthy (host args) = false ->
  fst (SpaClient_discover lib (negb (all args)) w) = Ok [] ->
  main lib budget args w =
    (Ok 0%Z, snd (SpaClient_discover lib (negb (all args)) w),
     (if debug args then [BasicConfigDebug] else [])
     ++ [Print (Text ("pybalboa version: " ++ version lib)%string);
         Print (Text "No host provided. Running in discovery mode...");
         Discover (negb (all args)) 0])
  /\ exit_code (value_of (main lib budget args w)) = 0%Z.
Proof.
  intros Hh Hnone.
  assert (Hd : dispatch lib budget args w =
    (Ok tt, snd (SpaClient_discover lib (negb (all args)) w),
     [Print (Text "No host provided. Running in discovery mode...");
      Discover (negb (all args)) 0])).
  { unfold dispatch. rewrite Hh, bind_print, run_discovery_run, Hnone.
    reflexivity. }
  rewrite main_run by (rewrite Hd; reflexivity).
  rewrite Hd. split; reflexivity.
Qed.
End Orchestrator.

(** ** The scenarios of the specification, run on the sample devices *)

Example scenario_B :
  set_requests (trace_of (sweep_control Pump.lib 100 Pump.never_off Pump.Low))
  = [Pump.Off; Pump.High; Pump.Low]
  /\ count is_timeout_report
       (trace_of (sweep_control Pump.lib 100 Pump.never_off Pump.Low)) = 1%nat.
Proof. vm_compute. split; reflexivity. Qed.

Example scenario_C :
  temperature_requests
    (trace_of (test_controls (Tub.lib []) 100 Tub.spa Tub.start))
  = [inject_Z 40; inject_Z 30].
Proof. vm_compute. reflexivity. Qed.

(** ** Inputs on which the claims as first stated fail *)

(** C1 as stated fails: High is an option other than the starting state Low,
    yet the sweep never requests it, because the request for Off left the
    pump in High and the loop skips the option the control already reports. *)
Lemma overshoot_skips_high :
  In Pump.High (options Pump.overshoot)
  /\ Pump.High <> state Pump.overshoot Pump.Low
  /\ set_requests (trace_of (sweep_control Pump.lib 100 Pump.overshoot Pump.Low))
     = [Pump.Off; Pump.Low]
  /\ count_occ Z.eq_dec
       (set_requests (trace_of (sweep_control Pump.lib 100 Pump.overshoot Pump.Low)))
       Pump.High = 0%nat.
Proof.
  split; [right; right; left; reflexivity|].
  split; [discriminate|]. vm_compute. split; reflexivity.
Qed.

(** C4 as stated fails: on a pump that applies no request both attempts time
    out, the pump is still in its original state after the loop, and no
    restore is attempted. *)
Lemma stuck_pump_gets_no_restore :
  count is_timeout_report
    (trace_of (sweep_control Pump.lib 100 Pump.stuck Pump.Low)) = 2%nat
  /\ set_requests (trace_of (sweep_control Pump.lib 100 Pump.stuck Pump.Low))
     = [Pump.Off; Pump.High]
  /\ ~ In Pump.Low
       (set_requests (trace_of (sweep_control Pump.lib 100 Pump.stuck Pump.Low))).
Proof.
  vm_compute. split; [reflexivity|]. split; [reflexivity|].
  intros [H|[H|[]]]; discriminate H.
Qed.


(** C7 as stated fails: the rejected request for Off leaves no line in the
    output.  The attempt ends with the request, and what the sweep prints
    next is the heading of the attempt on High. *)
Lemma rejection_leaves_no_line :
  trace_of (adjust_control Pump.lib 100 Pump.rejects_off Pump.Off Pump.Low)
  = [Print (CurrentState Pump.Low); Print (SetTo Pump.Off);
     SetState Pump.Off false]
  /\ printed (trace_of (sweep_control Pump.lib 100 Pump.rejects_off Pump.Low))
     = [Text "Pump 1 control"; Text "--------------";
        CurrentState Pump.Low; SetTo Pump.Off;
        CurrentState Pump.Low; SetTo Pump.High; StateIsNow Pump.High;
        CurrentState Pump.High; SetTo Pump.Low; StateIsNow Pump.Low;
        Text ""].
Proof. vm_compute. split; reflexivity. Qed.


(** C9 as stated fails: with no spa discovered the run prints the version
    and the discovery notice, both written before discovery, and nothing
    else; "No spa provided" is not among the lines. *)
Lemma empty_discovery_prints_no_report :
  fst (SpaClient_discover (Tub.lib []) true Tub.start) = Ok []
  /\ printed (trace_of (main (Tub.lib []) 100 Tub.discover_first Tub.start))
     = [Text "pybalboa version: 1.0.0";
        Text "No host provided. Running in discovery mode..."]
  /\ ~ In (Text "No spa provided")
       (printed (trace_of (main (Tub.lib []) 100 Tub.discover_first Tub.start))).
Proof.
  vm_compute. split; [reflexivity|]. split; [reflexivity|].
  intros [H|[H|[]]]; discriminate H.
Qed.

(** ** The theorems at work on the sample devices *)

Lemma sweep_attempts_per_option_obedient :
  count_occ Z.eq_dec
    (set_requests (trace_of (sweep_control Pump.lib 100 Pump.obedient Pump.Low)))
    Pump.High = 1%nat.
Proof.
  apply (sweep_attempts_per_option Pump.lib 100 Pump.obedient Pump.Low
           [Pump.Off; Pump.Low] [] Pump.High).
  - reflexivity.
  - repeat constructor; simpl; intuition discriminate.
  - discriminate.
Defined.

Lemma sweep_restores_original_state_obedient :
  state Pump.obedient
    (world_of (sweep_control Pump.lib 100 Pump.obedient Pump.Low)) = Pump.Low.
Proof.
  apply (sweep_restores_original_state Pump.lib 100 Pump.obedient Pump.Low).
  - vm_compute. reflexivity.
  - vm_compute. reflexivity.
Defined.

Lemma rejected_request_is_not_polled_rejecting :
  count is_poll
    (trace_of (adjust_control Pump.lib 100 Pump.rejecting Pump.Off Pump.Low))
  = 0%nat.
Proof.
  apply (rejected_request_is_not_polled Pump.lib 100 Pump.rejecting
           Pump.Off Pump.Low).
  reflexivity.
Defined.

Lemma timeout_does_not_abort_sweep_never_off :
  In Pump.High
     (set_requests (trace_of (sweep_control Pump.lib 100 Pump.never_off Pump.Low)))
  /\ In Pump.Low
       (set_requests (trace_of (sweep_control Pump.lib 100 Pump.never_off Pump.Low))).
Proof.
  destruct (timeout_does_not_abort_sweep Pump.lib 100 Pump.never_off Pump.Low
              [] [Pump.Low; Pump.High] Pump.Off) as (_ & _ & Hlater & Hrestore).
  - reflexivity.
  - vm_compute. reflexivity.
  - split.
    + apply (Hlater [Pump.Low] Pump.High []).
      * reflexivity.
      * discriminate.
      * vm_compute. discriminate.
    + apply Hrestore. vm_compute. discriminate.
Defined.

Lemma temperature_sweep_requests_tub :
  temperature_requests
    (trace_of (test_controls (Tub.lib []) 100 Tub.spa Tub.start))
  = [inject_Z 40; inject_Z 30].
Proof.
  apply (temperature_sweep_requests (Tub.lib []) 100 Tub.spa Tub.start
           (inject_Z 30) (inject_Z 40) (inject_Z 10)); reflexivity.
Defined.


Lemma rejection_is_silent_rejects_off :
  printed (trace_of (sweep_option Pump.lib 100 Pump.rejects_off Pump.Low Pump.Off
                       Pump.Low))
  = [CurrentState Pump.Low; SetTo Pump.Off]
  /\ value_of (sweep_control Pump.lib 100 Pump.rejects_off Pump.Low) = Ok tt.
Proof.
  destruct (rejection_is_silent_and_sweep_goes_on Pump.lib 100 Pump.rejects_off
              Pump.Low [] [Pump.Low; Pump.High] Pump.Off)
    as (Hsilent & Hok & _).
  - reflexivity.
  - discriminate.
  - discriminate.
  - reflexivity.
  - split; [exact Hsilent | exact Hok].
Defined.

Lemma empty_discovery_is_silent_tub :
  exit_code (value_of (main (Tub.lib []) 100 Tub.discover_first Tub.start)) = 0%Z.
Proof.
  apply (empty_discovery_is_silent (Tub.lib []) 100 Tub.discover_first Tub.start);
    reflexivity.
Defined.

Lemma single_option_sweep_is_silent_mister :
  set_requests (trace_of (sweep_control Pump.lib 100 Pump.single Pump.Off)) = [].
Proof.
  apply (single_option_sweep_is_silent Pump.lib 100 Pump.single Pump.Off).
  intros o [H|[]]. symmetry. exact H.
Defined.

(** ** Further properties of the verifier *)

Section VerifierTiming.
Context {W : Type}.
Variable lib : Library W.
Variable budget : nat.
Variable control : SpaControl W.

Lemma after_sleeps_shift (k : nat) (w : W) :
  after_sleeps lib k (asyncio_sleep lib w) = after_sleeps lib (S k) w.
Proof. unfold after_sleeps. symmetry. apply Nat.iter_succ_r. Qed.

(** One round of the poll loop that does not see the target. *)
Lemma wait_for_state_check_round (target : Z) (n : nat) (w : W) :
  state control w <> target ->
  wait_for_state_check lib control target (S n) w =
    (value_of (wait_for_state_check lib control target n (asyncio_sleep lib w)),
     world_of (wait_for_state_check lib control target n (asyncio_sleep lib w)),
     Poll (state control w) :: Sleep
       :: trace_of (wait_for_state_check lib control target n (asyncio_sleep lib w))).
Proof.
  intros H. cbn [wait_for_state_check]. rewrite bind_read.
  unfold bind at 1, emit. apply Z.eqb_neq in H. rewrite H. cbn [negb].
  unfold bind, sleep, await.
  destruct (wait_for_state_check lib control target n (asyncio_sleep lib w))
    as [[v w1] t]. reflexivity.
Qed.

Lemma wait_for_state_check_deadline (target : Z) (w : W) :
  state control w <> target ->
  wait_for_state_check lib control target 0 w =
    (Raise TimeoutError, cancelled_sleep lib w,
     [Poll (state control w); Cancelled]).
Proof.
  intros H. cbn [wait_for_state_check]. rewrite bind_read.
  unfold bind at 1, emit. apply Z.eqb_neq in H. rewrite H. reflexivity.
Qed.

(** A loop that never sees the target uses its whole budget. *)
Lemma wait_for_state_check_never (target : Z) (n : nat) (w : W) :
  (forall k, (k <= n)%nat -> state control (after_sleeps lib k w) <> target) ->
  value_of (wait_for_state_check lib control target n w) = Raise TimeoutError
  /\ world_of (wait_for_state_check lib control target n w)
     = cancelled_sleep lib (after_sleeps lib n w)
  /\ count is_poll (trace_of (wait_for_state_check lib control target n w)) = S n
  /\ count is_sleep (trace_of (wait_for_state_check lib control target n w)) = S n.
Proof.
  revert w. induction n as [|n IH]; intros w H.
  - rewrite wait_for_state_check_deadline by (apply (H 0%nat); lia).
    repeat split.
  - rewrite wait_for_state_check_round by (apply (H 0%nat); lia).
    destruct (IH (asyncio_sleep lib w)) as (Hv & Hw & Hp & Hs).
    { intros k Hk. rewrite after_sleeps_shift. apply H. lia. }
    cbn [value_of world_of trace_of fst snd].
    rewrite after_sleeps_shift in Hw.
    split; [exact Hv|]. split; [exact Hw|].
    unfold count in *. cbn. rewrite Hp, Hs. split; reflexivity.
Qed.


Lemma adjust_control_trace (target : Z) (w : W) :
  trace_of (adjust_control lib budget control target w) =
    [Print (CurrentState (state control w)); Print (SetTo target);
     SetState target (fst (set_state control target w))]
    ++ (if fst (set_state control target w)
        then trace_of (wait_for_state_check lib control target budget
                         (snd (set_state control target w)))
             ++ [Print (verdict lib budget control target
                          (snd (set_state control target w)))]
        else []).
Proof. rewrite adjust_control_run. reflexivity. Qed.

Lemma adjust_control_world (target : Z) (w : W) :
  world_of (adjust_control lib budget control target w) =
    if fst (set_state control target w)
    then world_of (wait_for_state_check lib control target budget
                     (snd (set_state control target w)))
    else snd (set_state control target w).
Proof. rewrite adjust_control_run. reflexivity. Qed.

(** X1.  If an accepted request is followed by [budget] whole sleeps during
    which the control never shows the target, the attempt polls
    [budget + 1] times, sleeps through the whole budget, prints no
    confirmation and ends with the line of the timeout, which names the
    state shown when the deadline passed. *)
Theorem attempt_times_out (target : Z) (w : W) :
  fst (set_state control target w) = true ->
  (forall k, (k <= budget)%nat ->
     state control (after_sleeps lib k (snd (set_state control target w)))
     <> target) ->
  let r := adjust_control lib budget control target w in
  let final := cancelled_sleep lib
                 (after_sleeps lib budget (snd (set_state control target w))) in
  value_of r = Ok tt
  /\ world_of r = final
  /\ count is_poll (trace_of r) = S budget
  /\ count is_sleep (trace_of r) = S budget
  /\ count is_confirmation (trace_of r) = 0%nat
  /\ printed (trace_of r)
     = [CurrentState (state control w); SetTo target;
        StateNotChanged wait (state control final)].
Proof.
  intros Hacc Hnever. cbn zeta.
  destruct (wait_for_state_check_never target budget _ Hnever)
    as (Hv & Hw & Hp & Hs).
  pose proof (wait_for_state_check_quiet lib control target budget
                (snd (set_state control target w))) as Hq.
  assert (Hc : count is_confirmation
                 (trace_of (wait_for_state_check lib control target budget
                              (snd (set_state control target w)))) = 0%nat).
  { apply no_count. eapply Forall_impl; [|exact Hq].
    intros e He. destruct e; try discriminate He; reflexivity. }
  apply quiet_set_requests in Hq. destruct Hq as (_ & Hpr & _).
  split; [apply adjust_control_ok|].
  rewrite adjust_control_world, adjust_control_trace, Hacc.
  unfold verdict. rewrite Hv, Hw.
  split; [reflexivity|].
  rewrite !count_app, !printed_app, Hp, Hs, Hc, Hpr.
  repeat split; try reflexivity; unfold count; simpl; lia.
Qed.


Lemma wait_for_state_check_sleeps (target : Z) (n : nat) (w : W) :
  (count is_sleep (trace_of (wait_for_state_check lib control target n w))
   <= S n)%nat.
Proof.
  revert w. induction n as [|n IH]; intros w;
    destruct (Z.eq_dec (state control w) target) as [E|E].
  - rewrite (wait_for_state_check_first_poll lib control target _ w E).
    cbn. lia.
  - rewrite wait_for_state_check_deadline by exact E. cbn. lia.
  - rewrite (wait_for_state_check_first_poll lib control target _ w E).
    cbn. lia.
  - rewrite wait_for_state_check_round by exact E.
    specialize (IH (asyncio_sleep lib w)).
    unfold count in *. cbn. lia.
Qed.

Lemma adjust_control_sleeps (target : Z) (w : W) :
  (count is_sleep (trace_of (adjust_control lib budget control target w))
   <= S budget)%nat.
Proof.
  rewrite adjust_control_trace.
  destruct (fst (set_state control target w)).
  - rewrite !count_app.
    pose proof (wait_for_state_check_sleeps target budget
                  (snd (set_state control target w))) as Hbound.
    change (count is_sleep [Print ?a; Print ?b; SetState ?c ?d]) with 0%nat.
    change (count is_sleep [Print ?a]) with 0%nat. lia.
  - cbn. lia.
Qed.

(** X4.  Whatever the device does, an attempt returns normally (the timeout
    is caught inside it), issues exactly one set request, for its target,
    never touches the temperature, and sleeps at most [budget + 1] times. *)
Theorem attempt_is_one_bounded_request (target : Z) (w : W) :
  value_of (adjust_control lib budget control target w) = Ok tt
  /\ set_requests (trace_of (adjust_control lib budget control target w))
     = [target]
  /\ temperature_requests (trace_of (adjust_control lib budget control target w))
     = []
  /\ (count is_sleep (trace_of (adjust_control lib budget control target w))
      <= S budget)%nat.
Proof.
  split; [apply adjust_control_ok|].
  split; [apply adjust_control_set_requests|].
  split; [|apply adjust_control_sleeps].
  pose proof (wait_for_state_check_quiet lib control target budget
                (snd (set_state control target w))) as Hq.
  apply quiet_set_requests in Hq. destruct Hq as (_ & _ & Ht & _).
  rewrite adjust_control_trace.
  destruct (fst (set_state control target w)); [|reflexivity].
  rewrite temperature_requests_app, temperature_requests_app, Ht.
  reflexivity.
Qed.
End VerifierTiming.

(** ** Further properties of the sweep of one control *)

Section SweepShape.
Context {W : Type}.
Variable lib : Library W.
Variable budget : nat.
Variable control : SpaControl W.

Lemma loop_requests_length (original : Z) (opts : list Z) (w : W) :
  (List.length
     (set_requests
        (trace_of (for_each opts (sweep_option lib budget control original) w)))
   <= List.length opts)%nat.
Proof.
  revert w. induction opts as [|o opts IH]; intros w; [cbn; lia|].
  rewrite for_each_cons_ok by apply sweep_option_ok.
  specialize (IH (world_of (sweep_option lib budget control original o w))).
  pose proof (sweep_option_requests lib budget control original o w) as Ho.
  unfold trace_of in *. cbn [snd]. rewrite set_requests_app, length_app, Ho.
  destruct ((o =? original)%Z || (o =? state control w)%Z); cbn [List.length]; lia.
Qed.

Lemma sweep_control_requests_split (w : W) :
  set_requests (trace_of (sweep_control lib budget control w)) =
    set_requests (trace_of (sweep_options lib budget control (state control w) w))
    ++ (if (state control
              (reached lib budget control (state control w) (options control) w)
            =? state control w)%Z
        then [] else [state control w]).
Proof.
  rewrite sweep_control_trace, !set_requests_app, restore_requests.
  cbn [set_requests app]. rewrite app_nil_r. reflexivity.
Qed.

(** X5.  A sweep requests nothing but options of the control and its
    original state; the options are requested during the loop, never the
    original state among them, and the original state is requested at most
    once, as the last request.  So a sweep makes at most one request more
    than the control has options. *)
Theorem sweep_requests_shape (w : W) :
  exists during : list Z,
    (forall x, In x during -> In x (options control) /\ x <> state control w)
    /\ (set_requests (trace_of (sweep_control lib budget control w)) = during
        \/ set_requests (trace_of (sweep_control lib budget control w))
           = during ++ [state control w])
    /\ (List.length (set_requests (trace_of (sweep_control lib budget control w)))
        <= List.length (options control) + 1)%nat.
Proof.
  exists (set_requests
            (trace_of (sweep_options lib budget control (state control w) w))).
  split; [intros x Hx; exact (loop_requests lib budget control _ _ _ _ Hx)|].
  rewrite sweep_control_requests_split.
  pose proof (loop_requests_length (state control w) (options control) w) as Hlen.
  unfold sweep_options in *.
  destruct (state control
              (reached lib budget control (state control w) (options control) w)
            =? state control w)%Z.
  - rewrite app_nil_r. split; [left; reflexivity | lia].
  - split; [right; reflexivity|]. rewrite length_app. cbn [List.length]. lia.
Qed.

Lemma loop_sleeps (original : Z) (opts : list Z) (w : W) :
  (count is_sleep
     (trace_of (for_each opts (sweep_option lib budget control original) w))
   <= List.length opts * S budget)%nat.
Proof.
  revert w. induction opts as [|o opts IH]; intros w; [cbn; lia|].
  rewrite for_each_cons_ok by apply sweep_option_ok.
  specialize (IH (world_of (sweep_option lib budget control original o w))).
  assert (H : (count is_sleep
                 (trace_of (sweep_option lib budget control original o w))
               <= S budget)%nat).
  { rewrite sweep_option_run.
    destruct ((o =? original)%Z || (o =? state control w)%Z);
      [cbn; lia | apply adjust_control_sleeps]. }
  unfold trace_of in *. cbn [snd]. rewrite count_app.
  cbn [List.length]. lia.
Qed.

(** X6.  The sweep of a control with [n] options sleeps at most
    [(n + 1) * (budget + 1)] times, whatever the device does: its duration is
    bounded by the number of options and the wait of one attempt. *)
Theorem sweep_sleeps_bounded (w : W) :
  (count is_sleep (trace_of (sweep_control lib budget control w))
   <= (List.length (options control) + 1) * S budget)%nat.
Proof.
  rewrite sweep_control_trace, !count_app.
  pose proof (loop_sleeps (state control w) (options control) w) as Hloop.
  fold (sweep_options lib budget control (state control w)) in Hloop.
  assert (Hrestore :
    (count is_sleep
       (trace_of (restore lib budget control (state control w)
                    (world_of (sweep_options lib budget control
                                 (state control w) w))))
     <= S budget)%nat).
  { rewrite restore_run.
    destruct (state control _ =? state control w)%Z;
      [cbn; lia | apply adjust_control_sleeps]. }
  change (count is_sleep [Print ?a; Print ?b]) with 0%nat.
  change (count is_sleep [Print ?a]) with 0%nat.
  nia.
Qed.

Lemma last_cons {A} (a d : A) (l : list A) : last (a :: l) d = last l a.
Proof.
  revert a d. induction l as [|b l IH]; intros a d; [reflexivity|].
  change (last (a :: b :: l) d) with (last (b :: l) d).
  rewrite !IH. reflexivity.
Qed.

Lemma others_all_differ (s : Z) (opts : list Z) (x : Z) :
  In x (others s opts) -> In x opts /\ x <> s.
Proof.
  unfold others. rewrite filter_In. intros [H1 H2]. split; [exact H1|].
  apply negb_true_iff, Z.eqb_neq in H2. exact H2.
Qed.

(** On a control that applies every request at once an attempt ends in the
    target state. *)
Lemma attempt_at_once (target : Z) (w : W) :
  applies_at_once control ->
  state control (world_of (adjust_control lib budget control target w)) = target.
Proof.
  intros H. destruct (H target w) as [Hacc Hst].
  rewrite adjust_control_run, Hacc.
  rewrite (wait_for_state_check_first_poll lib control target budget _ Hst).
  exact Hst.
Qed.

Lemma loop_at_once (original : Z) (opts : list Z) (w : W) :
  applies_at_once control ->
  NoDup opts ->
  state control w = original \/ ~ In (state control w) opts ->
  set_requests
    (trace_of (for_each opts (sweep_option lib budget control original) w))
  = others original opts
  /\ state control
       (world_of (for_each opts (sweep_option lib budget control original) w))
     = last (others original opts) (state control w).
Proof.
  intros Hobey. revert w. induction opts as [|o opts IH]; intros w Hnd Hlive.
  - split; reflexivity.
  - inversion Hnd as [|? ? Hnotin Hnd']; subst.
    rewrite for_each_cons_ok by apply sweep_option_ok.
    cbn [trace_of world_of fst snd]. rewrite set_requests_app.
    rewrite sweep_option_requests, sweep_option_run.
    unfold others. cbn [filter]. fold (others original opts).
    destruct (Z.eqb_spec o original) as [E|E]; cbn [orb negb].
    + destruct (IH w Hnd') as [Hr Hs].
      { destruct Hlive as [H|H]; [left; exact H | right].
        intros Hin. apply H. right. exact Hin. }
      cbn [world_of fst snd app]. split; assumption.
    + destruct (Z.eqb_spec o (state control w)) as [E'|E'].
      { exfalso. destruct Hlive as [H|H]; [congruence|].
        apply H. left. exact E'. }
      destruct (IH (world_of (adjust_control lib budget control o w)) Hnd')
        as [Hr Hs].
      { right. rewrite attempt_at_once by exact Hobey. exact Hnotin. }
      rewrite Hr, Hs, attempt_at_once by exact Hobey.
      split; [reflexivity|]. rewrite last_cons. reflexivity.
Qed.

(** X7.  On a control that accepts every request and shows the requested
    state at once, and whose option list has no duplicates, a sweep requests
    each option other than the original state exactly in the order of the
    list, then the original state if there was any other option, and leaves
    the control in its original state. *)
Theorem sweep_of_obedient_control (w : W) :
  applies_at_once control ->
  NoDup (options control) ->
  set_requests (trace_of (sweep_control lib budget control w))
  = others (state control w) (options control)
    ++ match others (state control w) (options control) with
       | [] => []
       | _ :: _ => [state control w]
       end
  /\ state control (world_of (sweep_control lib budget control w))
     = state control w.
Proof.
  intros Hobey Hnd.
  destruct (loop_at_once (state control w) (options control) w Hobey Hnd
              (or_introl eq_refl)) as [Hr Hs].
  rewrite sweep_control_requests_split, sweep_control_world.
  unfold reached, sweep_options in *. rewrite Hr, restore_run.
  set (w1 := world_of (for_each (options control)
                         (sweep_option lib budget control (state control w)) w))
    in *.
  destruct (others (state control w) (options control)) as [|o rest] eqn:Eo.
  - cbn [last] in Hs.
    destruct (Z.eqb_spec (state control w1) (state control w)) as [_|E];
      [|contradiction].
    split; [reflexivity | exact Hs].
  - assert (Hl : forall (l : list Z) (x : Z), In (last l x) (x :: l)).
    { induction l as [|y l IHl]; intros x; [left; reflexivity|].
      rewrite last_cons. right. apply IHl. }
    assert (Hin : In (state control w1) (o :: rest)).
    { rewrite Hs, last_cons. apply Hl. }
    rewrite <- Eo in Hin. apply others_all_differ in Hin.
    destruct (Z.eqb_spec (state control w1) (state control w)) as [E|_];
      [tauto|].
    split; [reflexivity|]. apply attempt_at_once. exact Hobey.
Qed.

Lemma length_dashes (n : nat) : String.length (dashes n) = n.
Proof. induction n as [|n IH]; [reflexivity|]. cbn. rewrite IH. reflexivity. Qed.

Lemma length_append (a b : string) :
  String.length (a ++ b)%string = (String.length a + String.length b)%nat.
Proof. induction a as [|c a IH]; [reflexivity|]. cbn. rewrite IH. reflexivity. Qed.

(** X8.  The sweep of a control opens with its heading and a rule of dashes
    exactly as wide as the heading, and closes with a blank line. *)
Theorem sweep_heading_is_underlined (w : W) :
  exists (rule : string) (body : list line),
    printed (trace_of (sweep_control lib budget control w))
    = Text (name control ++ " control")%string :: Text rule :: body ++ [Text ""]
    /\ rule = dashes (String.length rule)
    /\ String.length rule = String.length (name control ++ " control")%string.
Proof.
  exists (dashes (String.length (name control) + 8)).
  exists (printed (trace_of (sweep_options lib budget control (state control w) w))
          ++ printed (trace_of (restore lib budget control (state control w)
                        (world_of (sweep_options lib budget control
                                     (state control w) w))))).
  split; [|split].
  - rewrite sweep_control_trace, !printed_app. cbn [printed app].
    rewrite <- app_assoc. reflexivity.
  - rewrite length_dashes. reflexivity.
  - rewrite length_dashes, length_append. reflexivity.
Qed.
End SweepShape.

(** ** Further properties of the temperature sweep *)

Section TemperatureShape.
Context {W : Type}.
Variable lib : Library W.
Variable budget : nat.
Variable spa : SpaClient W.

(** The poll loop returns only on a target temperature equal to the one
    requested. *)
Lemma wait_for_temperature_check_sound (t : Q) (n : nat) (w : W) :
  (value_of (wait_for_temperature_check lib spa t n w) = Ok tt
   /\ py_ne_opt
        (target_temperature spa
           (world_of (wait_for_temperature_check lib spa t n w))) t = false)
  \/ value_of (wait_for_temperature_check lib spa t n w) = Raise TimeoutError.
Proof.
  revert w. induction n as [|n IH]; intros w; cbn [wait_for_temperature_check];
    rewrite bind_read; unfold bind at 1, emit;
    destruct (py_ne_opt (target_temperature spa w) t) eqn:E.
  - right. reflexivity.
  - left. split; [reflexivity | exact E].
  - unfold bind, sleep, await. specialize (IH (asyncio_sleep lib w)).
    destruct (wait_for_temperature_check lib spa t n (asyncio_sleep lib w))
      as [[v w1] tr]. exact IH.
  - left. split; [reflexivity | exact E].
Qed.

(** [adjust_temperature] in closed form. *)
Lemma adjust_temperature_run (t : Q) (w : W) :
  let r := wait_for_temperature_check lib spa t budget (set_temperature spa t w) in
  adjust_temperature lib budget spa t w =
    (Ok tt, world_of r,
     [Print (CurrentTargetTemperature (target_temperature spa w));
      Print (SetToTemperature t); SetTemperature t]
     ++ trace_of r
     ++ [Print match value_of r with
               | Ok _ => SetTemperatureIsNow (target_temperature spa (world_of r))
               | Raise _ =>
                   SetTemperatureNotChanged wait
                     (target_temperature spa (world_of r))
               end]).
Proof.
  cbn zeta.
  unfold adjust_temperature, bind, read, print, emit, await, try_except.
  destruct (wait_for_temperature_check_sound t budget (set_temperature spa t w))
    as [[Hv _] | Hv];
    destruct (wait_for_temperature_check lib spa t budget (set_temperature spa t w))
      as [[v w1] tr]; cbn in Hv; subst v; reflexivity.
Qed.

Lemma adjust_temperature_set_requests (t : Q) (w : W) :
  set_requests (trace_of (adjust_temperature lib budget spa t w)) = [].
Proof.
  pose proof (emits_only_wait_for_temperature_check lib temperature_quiet spa t
                budget (fun _ => I) I I (set_temperature spa t w)) as Hq.
  rewrite adjust_temperature_run. cbn [trace_of snd].
  rewrite !set_requests_app. cbn [set_requests app].
  assert (Hs : set_requests
                 (trace_of (wait_for_temperature_check lib spa t budget
                              (set_temperature spa t w))) = []).
  { induction Hq as [|e tr He _ IH]; [reflexivity|].
    destruct e; try destruct He; exact IH. }
  rewrite Hs. reflexivity.
Qed.

(** X9.  A call of [adjust_temperature] returns normally whatever the spa
    does (the timeout is caught inside it), requests its temperature exactly
    once and requests no control state. *)
Theorem adjust_temperature_outcome (t : Q) (w : W) :
  value_of (adjust_temperature lib budget spa t w) = Ok tt
  /\ temperature_requests (trace_of (adjust_temperature lib budget spa t w)) = [t]
  /\ set_requests (trace_of (adjust_temperature lib budget spa t w)) = [].
Proof.
  split; [apply adjust_temperature_ok|].
  split; [apply adjust_temperature_requests|].
  apply adjust_temperature_set_requests.
Qed.

Lemma test_controls_assertion_run (w : W) :
  target_temperature spa w = None
  \/ temperature_maximum spa w = None
  \/ temperature_minimum spa w = None ->
  test_controls lib budget spa w
  = (Raise AssertionError, w, map Print controls_heading).
Proof.
  intros H. unfold test_controls. rewrite !bind_print.
  destruct (target_temperature spa w) as [t|] eqn:Et.
  - rewrite (bind_assert _ _ _ _ Et).
    destruct (temperature_maximum spa w) as [mx|] eqn:Emx.
    + rewrite (bind_assert _ _ _ _ Emx).
      destruct (temperature_minimum spa w) as [mn|] eqn:Emn.
      * destruct H as [H|[H|H]]; discriminate H.
      * rewrite (bind_assert_fails _ _ _ Emn). reflexivity.
    + rewrite (bind_assert_fails _ _ _ Emx). reflexivity.
  - rewrite (bind_assert_fails _ _ _ Et). reflexivity.
Qed.

(** X10.  When the target, the maximum or the minimum temperature is not
    available, [test_controls] stops at its assertions: it has printed its
    four opening lines, made no request of any kind and left the world as
    it was, and raises [AssertionError]. *)
Theorem test_controls_stops_at_assertion (w : W) :
  target_temperature spa w = None
  \/ temperature_maximum spa w = None
  \/ temperature_minimum spa w = None ->
  test_controls lib budget spa w
  = (Raise AssertionError, w, map Print controls_heading)
  /\ set_requests (trace_of (test_controls lib budget spa w)) = []
  /\ temperature_requests (trace_of (test_controls lib budget spa w)) = [].
Proof.
  intros H. rewrite (test_controls_assertion_run w H). repeat split.
Qed.

(** X11.  In every run of [test_controls] the temperature requests come
    before the requests to the controls: the trace splits into a part without
    any control request and a later part without any temperature request. *)
Theorem temperature_precedes_controls (w : W) :
  exists before after : list event,
    trace_of (test_controls lib budget spa w) = before ++ after
    /\ set_requests before = []
    /\ temperature_requests after = [].
Proof.
  destruct (target_temperature spa w) as [t|] eqn:Et;
    [destruct (temperature_maximum spa w) as [mx|] eqn:Emx;
     [destruct (temperature_minimum spa w) as [mn|] eqn:Emn|]|].
  - rewrite (test_controls_run lib budget spa w t mx mn Et Emx Emn).
    cbn [trace_of snd].
    pose proof (adjust_temperature_set_requests
                  (if py_ne t mx then mx else mn) w) as Hs1.
    pose proof (adjust_temperature_set_requests t
                  (world_of (adjust_temperature lib budget spa
                               (if py_ne t mx then mx else mn) w))) as Hs2.
    exists (map Print controls_heading
            ++ trace_of (adjust_temperature lib budget spa
                           (if py_ne t mx then mx else mn) w)
            ++ trace_of (adjust_temperature lib budget spa t
                           (world_of (adjust_temperature lib budget spa
                                        (if py_ne t mx then mx else mn) w)))).
    eexists.
    split; [rewrite <- !app_assoc; reflexivity|]. split.
    + rewrite !set_requests_app, Hs1, Hs2. reflexivity.
    + apply no_temperature_requests. unfold controls_part.
      apply emits_only_bind; [apply emits_only_print; reflexivity|].
      intros _. apply emits_only_bind; [apply emits_only_read|].
      intros cs. apply emits_only_for_each. intros c.
      apply emits_only_sweep_control; reflexivity.
  - rewrite test_controls_assertion_run by (right; right; exact Emn).
    exists (map Print controls_heading), []. rewrite app_nil_r. repeat split.
  - rewrite test_controls_assertion_run by (right; left; exact Emx).
    exists (map Print controls_heading), []. rewrite app_nil_r. repeat split.
  - rewrite test_controls_assertion_run by (left; exact Et).
    exists (map Print controls_heading), []. rewrite app_nil_r. repeat split.
Qed.

Lemma test_controls_temperature_requests (w : W) (t mx mn : Q) :
  target_temperature spa w = Some t ->
  temperature_maximum spa w = Some mx ->
  temperature_minimum spa w = Some mn ->
  temperature_requests (trace_of (test_controls lib budget spa w))
  = [if Qeq_bool t mx then mn else mx; t].
Proof.
  intros Ht Hmx Hmn.
  rewrite (test_controls_run lib budget spa w t mx mn Ht Hmx Hmn).
  cbn [trace_of snd]. rewrite !temperature_requests_app.
  rewrite !(adjust_temperature_requests lib budget spa).
  cbn [temperature_requests app].
  rewrite (no_temperature_requests (trace_of (controls_part lib budget spa _))).
  - unfold py_ne. destruct (Qeq_bool t mx); reflexivity.
  - unfold controls_part.
    apply emits_only_bind; [apply emits_only_print; reflexivity|].
    intros _. apply emits_only_bind; [apply emits_only_read|].
    intros cs. apply emits_only_for_each. intros c.
    apply emits_only_sweep_control; reflexivity.
Qed.

(** X12.  When the minimum and the maximum temperature differ, the first
    request of the temperature sweep is for one of the two bounds and differs
    from the current target, so the sweep does ask for a change before it
    asks for the original target again. *)
Theorem temperature_sweep_moves_away (w : W) (t mx mn : Q) :
  target_temperature spa w = Some t ->
  temperature_maximum spa w = Some mx ->
  temperature_minimum spa w = Some mn ->
  Qeq_bool mn mx = false ->
  exists away,
    temperature_requests (trace_of (test_controls lib budget spa w)) = [away; t]
    /\ (away = mx \/ away = mn)
    /\ Qeq_bool t away = false.
Proof.
  intros Ht Hmx Hmn Hdiff.
  exists (if Qeq_bool t mx then mn else mx).
  split; [apply (test_controls_temperature_requests w t mx mn Ht Hmx Hmn)|].
  destruct (Qeq_bool t mx) eqn:E.
  - split; [right; reflexivity|].
    destruct (Qeq_bool t mn) eqn:E'; [|reflexivity].
    apply Qeq_bool_iff in E, E'.
    assert (H : Qeq_bool mn mx = true).
    { apply Qeq_bool_iff. rewrite <- E'. exact E. }
    rewrite H in Hdiff. discriminate Hdiff.
  - split; [left; reflexivity | exact E].
Qed.
End TemperatureShape.

(** ** Further properties of the orchestrator *)

Section Sessions.
Context {W : Type}.
Variable lib : Library W.
Variable budget : nat.

Lemma test_controls_value (spa : SpaClient W) (w : W) :
  value_of (test_controls lib budget spa w) = Ok tt
  \/ value_of (test_controls lib budget spa w) = Raise AssertionError.
Proof.
  destruct (target_temperature spa w) as [t|] eqn:Et;
    [destruct (temperature_maximum spa w) as [mx|] eqn:Emx;
     [destruct (temperature_minimum spa w) as [mn|] eqn:Emn|]|].
  - left. rewrite (test_controls_run lib budget spa w t mx mn Et Emx Emn).
    reflexivity.
  - right. rewrite test_controls_assertion_run by (right; right; exact Emn).
    reflexivity.
  - right. rewrite test_controls_assertion_run by (right; left; exact Emx).
    reflexivity.
  - right. rewrite test_controls_assertion_run by (left; exact Et).
    reflexivity.
Qed.

(** [session] in closed form. *)
Lemma session_run (spa : SpaClient W) (w : W) :
  let w1 := snd (async_configuration_loaded spa w) in
  session lib budget spa w =
    if fst (async_configuration_loaded spa w)
    then (match value_of (test_controls lib budget spa w1) with
          | Ok _ => Ok true
          | Raise e => Raise e
          end,
          world_of (test_controls lib budget spa w1),
          ConfigurationLoaded true :: map Print (report spa w1)
            ++ trace_of (test_controls lib budget spa w1))
    else (Ok false, w1,
          [ConfigurationLoaded false; Print (not_loaded_message (spa_state spa w1))]).
Proof.
  cbn zeta. unfold session, bind at 1, await.
  destruct (async_configuration_loaded spa w) as [loaded w1]. cbn [fst snd].
  destruct loaded; cbn [negb].
  - rewrite bind_read.
    rewrite (bind_ok _ _ _ tt) by (rewrite for_each_print_run; reflexivity).
    rewrite for_each_print_run. cbn [world_of trace_of value_of fst snd].
    unfold bind, ret.
    destruct (test_controls lib budget spa w1) as [[[u|e] w2] t];
      cbn [value_of world_of trace_of fst snd app];
      rewrite ?app_nil_r; reflexivity.
  - rewrite bind_read.
    destruct (spa_state spa w1); rewrite bind_print; reflexivity.
Qed.

Lemma session_value (spa : SpaClient W) (w : W) :
  (exists b, value_of (session lib budget spa w) = Ok b)
  \/ value_of (session lib budget spa w) = Raise AssertionError.
Proof.
  rewrite session_run.
  destruct (fst (async_configuration_loaded spa w)).
  - destruct (test_controls_value spa (snd (async_configuration_loaded spa w)))
      as [H|H]; rewrite H; [left; exists true | right]; reflexivity.
  - left. exists false. reflexivity.
Qed.

(** [connect_and_listen] in closed form, for the spa it works on. *)
Lemma connect_and_listen_run
  (host : option string) (spa : option (SpaClient W)) (c : SpaClient W) (w : W) :
  chosen_spa lib host spa = Some c ->
  let w1 := snd (connect c w) in
  let r := session lib budget c w1 in
  connect_and_listen lib budget host spa w =
    if fst (connect c w)
    then match value_of r with
         | Ok true =>
             (Ok tt, disconnect c (world_of r),
              Print banner :: Connect true :: trace_of r ++ [Disconnect]
                ++ map Print footer)
         | Ok false =>
             (Ok tt, disconnect c (world_of r),
              Print banner :: Connect true :: trace_of r ++ [Disconnect])
         | Raise SpaConnectionError =>
             (Ok tt, disconnect c (world_of r),
              Print banner :: Connect true :: trace_of r ++ [Disconnect]
                ++ [Print (failed_to_connect host)])
         | Raise e =>
             (Raise e, disconnect c (world_of r),
              Print banner :: Connect true :: trace_of r ++ [Disconnect])
         end
    else (Ok tt, w1,
          [Print banner; Connect false; Print (failed_to_connect host)]).
Proof.
  intros Hc. cbn zeta. unfold connect_and_listen, connect_and_listen_try.
  rewrite Hc. unfold bind, try_except, print, emit, ret, failed_to_connect, banner.
  cbv beta iota. rewrite async_with_run.
  destruct (fst (connect c w)).
  - destruct (session lib budget c (snd (connect c w))) as [[[b|e] w2] t];
      cbn [value_of world_of trace_of fst snd];
      [destruct b | destruct e];
      cbn [is_connection_error app footer map];
      rewrite <- ?app_assoc, ?app_nil_r; reflexivity.
  - reflexivity.
Qed.

Lemma connect_and_listen_run_none
  (host : option string) (spa : option (SpaClient W)) (w : W) :
  chosen_spa lib host spa = None ->
  connect_and_listen lib budget host spa w
  = (Ok tt, w, [Print banner; Print (Text "No spa provided")]).
Proof.
  intros Hc. unfold connect_and_listen, connect_and_listen_try.
  rewrite Hc. reflexivity.
Qed.

(** X13.  When the session cannot be opened, [connect_and_listen] reports
    the failure with the host it was given ("None" in discovery mode) and
    returns normally: nothing else is printed, nothing is requested and the
    closing lines with the issue tracker are left out. *)
Theorem connection_failure_is_reported
  (host : option string) (spa : option (SpaClient W)) (c : SpaClient W) (w : W) :
  chosen_spa lib host spa = Some c ->
  fst (connect c w) = false ->
  connect_and_listen lib budget host spa w
  = (Ok tt, snd (connect c w),
     [Print banner; Connect false;
      Print (Text ("Failed to connect to spa at " ++ str_host host)%string)]).
Proof.
  intros Hc Hf. rewrite (connect_and_listen_run host spa c w Hc), Hf.
  reflexivity.
Qed.

(** X14.  When the session opens but the configuration has not loaded,
    [connect_and_listen] prints the test-mode line if the spa is in test
    mode and the generic line otherwise, closes the session and returns
    without sweeping anything and without the closing lines. *)
Theorem unloaded_configuration_skips_sweep
  (host : option string) (spa : option (SpaClient W)) (c : SpaClient W) (w : W) :
  chosen_spa lib host spa = Some c ->
  fst (connect c w) = true ->
  fst (async_configuration_loaded c (snd (connect c w))) = false ->
  let w2 := snd (async_configuration_loaded c (snd (connect c w))) in
  connect_and_listen lib budget host spa w
  = (Ok tt, disconnect c w2,
     [Print banner; Connect true; ConfigurationLoaded false;
      Print (match spa_state c w2 with
             | TEST_MODE => Text "Config not loaded, spa is in test mode!"
             | OTHER_STATE => Text "Config not loaded, something is wrong!"
             end);
      Disconnect]).
Proof.
  intros Hc Hok Hl. cbn zeta.
  rewrite (connect_and_listen_run host spa c w Hc), Hok, session_run, Hl.
  reflexivity.
Qed.

(** X15.  Called with a host that is absent or empty and with no spa,
    [connect_and_listen] prints "No spa provided" and returns: it opens no
    session and leaves the world as it was. *)
Theorem no_spa_provided (host : option string) (w : W) :
  truthy host = false ->
  connect_and_listen lib budget host None w
  = (Ok tt, w, [Print banner; Print (Text "No spa provided")]).
Proof.
  intros H. apply connect_and_listen_run_none.
  unfold chosen_spa. rewrite H. destruct host; reflexivity.
Qed.

(** X16.  When the session opens, the configuration has loaded and the three
    temperatures are available, [connect_and_listen] prints the report and
    runs [test_controls] inside the session, closes the session afterwards
    and only then prints the closing lines with the issue tracker. *)
Theorem successful_session
  (host : option string) (spa : option (SpaClient W)) (c : SpaClient W) (w : W) :
  chosen_spa lib host spa = Some c ->
  fst (connect c w) = true ->
  fst (async_configuration_loaded c (snd (connect c w))) = true ->
  let w2 := snd (async_configuration_loaded c (snd (connect c w))) in
  target_temperature c w2 <> None ->
  temperature_maximum c w2 <> None ->
  temperature_minimum c w2 <> None ->
  connect_and_listen lib budget host spa w
  = (Ok tt, disconnect c (world_of (test_controls lib budget c w2)),
     [Print banner; Connect true; ConfigurationLoaded true]
     ++ map Print (report c w2)
     ++ trace_of (test_controls lib budget c w2)
     ++ [Disconnect]
     ++ map Print footer).
Proof.
  intros Hc Hok Hl. cbn zeta. intros Ht Hmx Hmn.
  assert (Hv : value_of
                 (test_controls lib budget c
                    (snd (async_configuration_loaded c (snd (connect c w)))))
               = Ok tt).
  { destruct (target_temperature c _) as [t|] eqn:Et; [|contradiction].
    destruct (temperature_maximum c _) as [mx|] eqn:Emx; [|contradiction].
    destruct (temperature_minimum c _) as [mn|] eqn:Emn; [|contradiction].
    rewrite (test_controls_run lib budget c _ t mx mn Et Emx Emn).
    reflexivity. }
  rewrite (connect_and_listen_run host spa c w Hc), Hok, session_run, Hl.
  cbn [value_of world_of trace_of fst snd]. rewrite Hv.
  cbn [app]. rewrite <- !app_assoc. reflexivity.
Qed.
End Sessions.

Section Runs.
Context {W : Type}.
Variable lib : Library W.
Variable budget : nat.

Lemma emits_only_session (P : event -> Prop) (spa : SpaClient W) :
  (forall l, P (Print l)) -> (forall t b, P (SetState t b)) ->
  (forall s, P (Poll s)) -> (forall x, P (SetTemperature x)) ->
  (forall s, P (PollTemperature s)) -> P Sleep -> P Cancelled ->
  (forall b, P (ConfigurationLoaded b)) ->
  emits_only P (session lib budget spa).
Proof.
  intros Hl Hset Hp Hst Hpt Hs Hc Hcl.
  assert (Ht : emits_only P (test_controls lib budget spa))
    by (apply emits_only_test_controls; assumption).
  unfold session. generalize dependent (test_controls lib budget spa).
  intros m Hm. emits; auto.
Qed.

Lemma emits_only_connect_and_listen (P : event -> Prop)
  (host : option string) (spa : option (SpaClient W)) :
  (forall l, P (Print l)) -> (forall t b, P (SetState t b)) ->
  (forall s, P (Poll s)) -> (forall x, P (SetTemperature x)) ->
  (forall s, P (PollTemperature s)) -> P Sleep -> P Cancelled ->
  (forall b, P (ConfigurationLoaded b)) ->
  (forall b, P (Connect b)) -> P Disconnect ->
  emits_only P (connect_and_listen lib budget host spa).
Proof.
  intros Hl Hset Hp Hst Hpt Hs Hc Hcl Hcon Hdis.
  assert (Hsess : forall c, emits_only P (session lib budget c))
    by (intros c; apply emits_only_session; assumption).
  unfold connect_and_listen, connect_and_listen_try, async_with.
  destruct (chosen_spa lib host spa) as [c|].
  - specialize (Hsess c). generalize dependent (session lib budget c).
    intros m Hm. emits; auto.
  - emits; auto.
Qed.

(** Inside a session nothing is opened, closed or discovered. *)
Lemma session_counts (spa : SpaClient W) (w : W) :
  count is_connect (trace_of (session lib budget spa w)) = 0%nat
  /\ count is_connected (trace_of (session lib budget spa w)) = 0%nat
  /\ count is_disconnect (trace_of (session lib budget spa w)) = 0%nat
  /\ count is_discover (trace_of (session lib budget spa w)) = 0%nat.
Proof.
  repeat split; apply no_count;
    apply (emits_only_session _ spa); intros; reflexivity.
Qed.

Lemma connect_and_listen_counts
  (host : option string) (spa : option (SpaClient W)) (w : W) :
  (count is_connect (trace_of (connect_and_listen lib budget host spa w))
   <= 1)%nat
  /\ (chosen_spa lib host spa <> None ->
      count is_connect (trace_of (connect_and_listen lib budget host spa w))
      = 1%nat)
  /\ count is_discover (trace_of (connect_and_listen lib budget host spa w))
     = 0%nat
  /\ count is_disconnect (trace_of (connect_and_listen lib budget host spa w))
     = count is_connected (trace_of (connect_and_listen lib budget host spa w)).
Proof.
  destruct (chosen_spa lib host spa) as [c|] eqn:Hc.
  - rewrite (connect_and_listen_run lib budget host spa c w Hc).
    destruct (session_counts c (snd (connect c w))) as (H1 & H2 & H3 & H4).
    unfold count in *.
    destruct (fst (connect c w)); [|cbn; repeat split; lia].
    destruct (value_of (session lib budget c (snd (connect c w))))
      as [[|]|[| |]]; cbn [trace_of snd filter is_connect is_connected
                           is_disconnect is_discover List.length];
      rewrite ?filter_app, ?length_app, H1, H2, H3, H4; cbn;
      repeat split; lia.
  - rewrite (connect_and_listen_run_none lib budget host spa w Hc).
    cbn. repeat split; try lia. intros H. contradiction.
Qed.

(** X17.  The session [connect_and_listen] opens is always closed again:
    in every run, also one that ends with an exception, the trace holds as
    many closings of a session as successful openings, and at most one
    attempt to open one. *)
Theorem session_is_always_closed
  (host : option string) (spa : option (SpaClient W)) (w : W) :
  count is_disconnect (trace_of (connect_and_listen lib budget host spa w))
  = count is_connected (trace_of (connect_and_listen lib budget host spa w))
  /\ (count is_connect (trace_of (connect_and_listen lib budget host spa w))
      <= 1)%nat.
Proof.
  destruct (connect_and_listen_counts host spa w) as (H1 & _ & _ & H4).
  split; assumption.
Qed.

Lemma connect_and_listen_value
  (host : option string) (spa : option (SpaClient W)) (w : W) :
  value_of (connect_and_listen lib budget host spa w) = Ok tt
  \/ value_of (connect_and_listen lib budget host spa w) = Raise AssertionError.
Proof.
  destruct (chosen_spa lib host spa) as [c|] eqn:Hc.
  - rewrite (connect_and_listen_run lib budget host spa c w Hc).
    destruct (fst (connect c w)); [|left; reflexivity].
    destruct (session_value lib budget c (snd (connect c w))) as [[b H]|H];
      rewrite H; [destruct b; left | right]; reflexivity.
  - rewrite (connect_and_listen_run_none lib budget host spa w Hc).
    left. reflexivity.
Qed.

Lemma for_each_value {A} (body : A -> M unit) (xs : list A) (w : W) (e : exn) :
  (forall x w', value_of (body x w') = Ok tt \/ value_of (body x w') = Raise e) ->
  value_of (for_each xs body w) = Ok tt
  \/ value_of (for_each xs body w) = Raise e.
Proof.
  intros H. revert w. induction xs as [|x xs IH]; intros w; [left; reflexivity|].
  cbn [for_each]. destruct (H x w) as [Hx|Hx].
  - rewrite (bind_ok _ _ _ tt Hx). apply IH.
  - rewrite (bind_raise _ _ _ e Hx). right. reflexivity.
Qed.

(** The trace of [main], whatever its outcome. *)
Lemma main_trace (args : Args) (w : W) :
  trace_of (main lib budget args w) =
    (if debug args then [BasicConfigDebug] else [])
    ++ Print (Text ("pybalboa version: " ++ version lib)%string)
       :: trace_of (dispatch lib budget args w).
Proof.
  unfold main.
  destruct (debug args); unfold bind, print, emit, ret; cbv beta iota;
    destruct (dispatch lib budget args w) as [[[u|e] w1] t];
    cbn [trace_of snd app]; rewrite ?app_nil_r; reflexivity.
Qed.

Lemma main_trace_count (p : event -> bool) (args : Args) (w : W) :
  p BasicConfigDebug = false ->
  (forall l, p (Print l) = false) ->
  count p (trace_of (main lib budget args w))
  = count p (trace_of (dispatch lib budget args w)).
Proof.
  intros Hd Hp. rewrite main_trace, count_app.
  unfold count at 1 2. cbn [filter]. rewrite Hp.
  destruct (debug args); cbn [filter]; rewrite ?Hd; reflexivity.
Qed.

(** X19.  Given a host, [main] does not run discovery: it makes exactly one
    attempt to open a session, with the client built from that host, whatever
    discovery would have found. *)
Theorem host_mode_skips_discovery (args : Args) (w : W) :
  truthy (host args) = true ->
  count is_discover (trace_of (main lib budget args w)) = 0%nat
  /\ count is_connect (trace_of (main lib budget args w)) = 1%nat.
Proof.
  intros Hh.
  rewrite !main_trace_count by reflexivity.
  unfold dispatch. rewrite Hh.
  destruct (connect_and_listen_counts (host args) None w) as (_ & H2 & H3 & _).
  split; [exact H3|]. apply H2.
  unfold chosen_spa. rewrite Hh. destruct (host args); discriminate.
Qed.

Lemma for_each_count_le {A} (p : event -> bool) (body : A -> M unit)
  (xs : list A) (w : W) :
  (forall x w', (count p (trace_of (body x w')) <= 1)%nat) ->
  (count p (trace_of (for_each xs body w)) <= List.length xs)%nat.
Proof.
  intros H. revert w. induction xs as [|x xs IH]; intros w; [cbn; lia|].
  cbn [for_each List.length]. specialize (H x w). unfold bind.
  destruct (body x w) as [[[u|e] w1] t]; cbn [trace_of snd] in *; [|lia].
  specialize (IH w1).
  destruct (for_each xs body w1) as [[v w2] t2]. cbn [trace_of snd] in *.
  rewrite count_app. lia.
Qed.

(** X20.  Without a host, [main] runs discovery exactly once, asking for the
    first spa only unless [--all] was given.  When discovery returns, it
    opens at most one session per spa found; when discovery fails, it opens
    none. *)
Theorem discovery_mode_discovers_once (args : Args) (w : W) :
  truthy (host args) = false ->
  count is_discover (trace_of (main lib budget args w)) = 1%nat
  /\ match fst (SpaClient_discover lib (negb (all args)) w) with
     | Ok found =>
         In (Discover (negb (all args)) (List.length found))
            (trace_of (main lib budget args w))
         /\ (count is_connect (trace_of (main lib budget args w))
             <= List.length found)%nat
     | Raise _ =>
         In (DiscoverFailed (negb (all args))) (trace_of (main lib budget args w))
         /\ count is_connect (trace_of (main lib budget args w)) = 0%nat
     end.
Proof.
  intros Hh.
  assert (Hd : trace_of (dispatch lib budget args w) =
    Print (Text "No host provided. Running in discovery mode...")
    :: trace_of (run_discovery lib budget (negb (all args)) w)).
  { unfold dispatch. rewrite Hh, bind_print. reflexivity. }
  rewrite !main_trace_count by reflexivity.
  rewrite main_trace, !Hd, run_discovery_run.
  destruct (fst (SpaClient_discover lib (negb (all args)) w)) as [found|e].
  - cbn zeta. cbn [trace_of snd]. split; [|split].
    + unfold count. cbn [filter is_discover List.length]. f_equal.
      apply (no_count is_discover).
      apply emits_only_for_each. intros spa.
      apply emits_only_connect_and_listen; intros; reflexivity.
    + apply in_or_app. right. right. right. left. reflexivity.
    + unfold count at 1. cbn [filter is_connect].
      apply for_each_count_le. intros spa w'.
      apply connect_and_listen_counts.
  - cbn [trace_of snd]. split; [reflexivity|]. split; [|reflexivity].
    apply in_or_app. right. right. right. left. reflexivity.
Qed.
End Runs.

(** ** The further properties at work on the sample devices *)

Lemma attempt_times_out_stuck :
  count is_poll (trace_of (adjust_control Pump.lib 3 Pump.stuck Pump.Off Pump.Low))
  = 4%nat.
Proof.
  apply (attempt_times_out Pump.lib 3 Pump.stuck Pump.Off Pump.Low).
  - reflexivity.
  - intros k Hk. do 4 (destruct k as [|k]; [discriminate|]). lia.
Defined.


Lemma sweep_of_obedient_control_pump :
  set_requests (trace_of (sweep_control Pump.lib 100 Pump.obedient Pump.Low))
  = [Pump.Off; Pump.High; Pump.Low].
Proof.
  apply (sweep_of_obedient_control Pump.lib 100 Pump.obedient Pump.Low).
  - intros target w. split; reflexivity.
  - repeat constructor; simpl; intuition discriminate.
Defined.

Lemma test_controls_stops_at_assertion_cold :
  set_requests (trace_of (test_controls (Tub.lib []) 100 Tub.cold Tub.start)) = [].
Proof.
  apply (test_controls_stops_at_assertion (Tub.lib []) 100 Tub.cold Tub.start).
  left. reflexivity.
Defined.

Lemma temperature_sweep_moves_away_tub :
  exists away,
    temperature_requests
      (trace_of (test_controls (Tub.lib []) 100 Tub.spa Tub.start))
    = [away; inject_Z 30]
    /\ (away = inject_Z 40 \/ away = inject_Z 10)
    /\ Qeq_bool (inject_Z 30) away = false.
Proof.
  apply (temperature_sweep_moves_away (Tub.lib []) 100 Tub.spa Tub.start
           (inject_Z 30) (inject_Z 40) (inject_Z 10)); reflexivity.
Defined.

Lemma connection_failure_is_reported_unreachable :
  printed (trace_of (connect_and_listen (Tub.lib []) 100 None
                       (Some Tub.unreachable) Tub.start))
  = [banner; Text "Failed to connect to spa at None"].
Proof.
  rewrite (connection_failure_is_reported (Tub.lib []) 100 None
             (Some Tub.unreachable) Tub.unreachable Tub.start);
    reflexivity.
Defined.

Lemma unloaded_configuration_skips_sweep_unready :
  printed (trace_of (connect_and_listen (Tub.lib []) 100 None
                       (Some Tub.unready) Tub.start))
  = [banner; Text "Config not loaded, spa is in test mode!"].
Proof.
  rewrite (unloaded_configuration_skips_sweep (Tub.lib []) 100 None
             (Some Tub.unready) Tub.unready Tub.start);
    reflexivity.
Defined.

Lemma no_spa_provided_empty_host :
  printed (trace_of (connect_and_listen (Tub.lib []) 100 (Some "") None Tub.start))
  = [banner; Text "No spa provided"].
Proof.
  rewrite (no_spa_provided (Tub.lib []) 100 (Some "") Tub.start); reflexivity.
Defined.

Lemma successful_session_tub :
  value_of (connect_and_listen (Tub.lib []) 100 None (Some Tub.spa) Tub.start)
  = Ok tt.
Proof.
  rewrite (successful_session (Tub.lib []) 100 None (Some Tub.spa) Tub.spa
             Tub.start); try reflexivity; discriminate.
Defined.

Lemma host_mode_skips_discovery_tub :
  count is_connect
    (trace_of (main (Tub.lib [Tub.spa; Tub.spa]) 100 Tub.with_host Tub.start))
  = 1%nat.
Proof.
  apply (host_mode_skips_discovery (Tub.lib [Tub.spa; Tub.spa]) 100
           Tub.with_host Tub.start).
  reflexivity.
Defined.

Lemma discovery_mode_discovers_once_tub :
  count is_discover
    (trace_of (main (Tub.lib [Tub.unreachable; Tub.spa]) 100 Tub.discover_all
                 Tub.start))
  = 1%nat.
Proof.
  apply (discovery_mode_discovers_once (Tub.lib [Tub.unreachable; Tub.spa]) 100
           Tub.discover_all Tub.start).
  reflexivity.
Defined.

(** ** Failures and their lines *)

Section TracePredicates.
Context {W : Type}.
Variable Q : list event -> Prop.
Hypothesis Q_nil : Q [].
Hypothesis Q_app : forall a b, Q a -> Q b -> Q (a ++ b).







End TracePredicates.

Section Reporting.
Context {W : Type}.
Variable lib : Library W.
Variable budget : nat.
Variable failed : line.



Lemma failures_reported_cons (e : event) (tr : list event) :
  is_failure e = false -> failures_reported failed tr ->
  failures_reported failed (e :: tr).
Proof.
  intros He H. split; [|exact H].
  unfold follows_failure.
  repeat match goal with
         | H : context [match ?x with _ => _ end] |- _ => is_var x; destruct x
         | |- context [match ?x with _ => _ end] => is_var x; destruct x
         end;
    cbn in *; try exact I; discriminate He.
Qed.

Lemma failures_reported_none (tr : list event) :
  Forall (fun e => is_failure e = false) tr -> failures_reported failed tr.
Proof.
  induction 1 as [|e tr He _ IH]; [exact I|].
  apply failures_reported_cons; assumption.
Qed.
Local Abbreviation reported := (failures_reported failed).
















End Reporting.

(** ** Runs that complete *)

Section Completion.
Context {W : Type}.
Variable lib : Library W.
Variable budget : nat.



End Completion.

(** ** The completion theorem at work *)


Section FailedDiscovery.
Context {W : Type}.
Variable lib : Library W.
Variable budget : nat.

(** X18.  [run_discovery] awaits [SpaClient.discover] outside any [try]:
    when discovery fails, its exception leaves [main].  The run has printed
    the version and the discovery notice, opens no session, does not reach
    [sys.exit(0)] and the process ends with status 1. *)
Theorem failed_discovery_ends_run (args : Args) (w : W) (e : exn) :
  truthy (host args) = false ->
  fst (SpaClient_discover lib (negb (all args)) w) = Raise e ->
  value_of (main lib budget args w) = Raise e
  /\ exit_code (value_of (main lib budget args w)) = 1%Z
  /\ trace_of (main lib budget args w)
     = (if debug args then [BasicConfigDebug] else [])
       ++ [Print (Text ("pybalboa version: " ++ version lib)%string);
           Print (Text "No host provided. Running in discovery mode...");
           DiscoverFailed (negb (all args))]
  /\ world_of (main lib budget args w)
     = snd (SpaClient_discover lib (negb (all args)) w).
Proof.
  intros Hh Hfail.
  assert (Hd : dispatch lib budget args w =
    (Raise e, snd (SpaClient_discover lib (negb (all args)) w),
     [Print (Text "No host provided. Running in discovery mode...");
      DiscoverFailed (negb (all args))])).
  { unfold dispatch. rewrite Hh, bind_print, run_discovery_run, Hfail.
    reflexivity. }
  assert (Hv : value_of (main lib budget args w) = Raise e).
  { apply main_raises. rewrite Hd. reflexivity. }
  rewrite Hv, main_trace, Hd.
  split; [reflexivity|]. split; [reflexivity|]. split; [reflexivity|].
  unfold main.
  destruct (debug args); unfold bind, print, emit, ret; cbv beta iota;
    rewrite Hd; reflexivity.
Qed.
End FailedDiscovery.

Lemma failed_discovery_ends_run_offline :
  exit_code (value_of (main Tub.offline 100 Tub.discover_first Tub.start)) = 1%Z.
Proof.
  apply (failed_discovery_ends_run Tub.offline 100 Tub.discover_first Tub.start
           SpaConnectionError); reflexivity.
Defined.
